(** * A shallow embedding of the content-addressed context cache
    ([scripts/blob_cache.py], class [BlobCache]).

    The remote container is a flat map from blob names to blobs.  A blob
    holds either raw bytes or a JSON document written with [json.dumps];
    JSON values are Python values (dict, list, str, number, bool, None),
    with Python's truthiness, [dict.get], subscription and [in]. *)

From Stdlib Require Import String Ascii List Bool ZArith QArith Qround Lia.
From Stdlib Require Import FunctionalExtensionality.
From Stdlib Require Floats.SpecFloat.
From stdpp Require Import base gmap strings list sorting.

Open Scope string_scope.
Local Set Warnings "-register-all".
Import ListNotations.

(** ** JSON values as the code sees them after [json.loads] *)

Inductive json : Type :=
| JNull
| JBool (b : bool)
| JNum (q : Q)
| JStr (s : string)
| JArr (l : list json)
| JObj (l : list (string * json)).

(** Python exceptions the modelled code can raise. *)
Inductive exn : Type := KeyError | TypeError | AttributeError | AzureError.

Inductive res (A : Type) : Type :=
| Ok (a : A)
| Err (e : exn).
Arguments Ok {A} a.
Arguments Err {A} e.

(** [bool(v)] *)
Definition truthy (j : json) : bool :=
  match j with
  | JNull => false
  | JBool b => b
  | JNum q => negb (Qeq_bool q 0)
  | JStr s => negb (String.eqb s "")
  | JArr l => negb (Nat.eqb (length l) 0)
  | JObj l => negb (Nat.eqb (length l) 0)
  end.

(** Key lookup in a dict (the keys of a Python dict are unique). *)
Fixpoint assoc (k : string) (l : list (string * json)) : option json :=
  match l with
  | [] => None
  | (k', v) :: l' => if String.eqb k k' then Some v else assoc k l'
  end.

(** [v.get(k, default)] *)
Definition py_get (v : json) (k : string) (default : json) : res json :=
  match v with
  | JObj l => Ok (match assoc k l with Some x => x | None => default end)
  | _ => Err AttributeError
  end.

(** [v.get(k)] *)
Definition py_get_opt (v : json) (k : string) : res (option json) :=
  match v with
  | JObj l => Ok (assoc k l)
  | _ => Err AttributeError
  end.

(** [v[k]] with a string key *)
Definition py_getitem (v : json) (k : string) : res json :=
  match v with
  | JObj l => match assoc k l with Some x => Ok x | None => Err KeyError end
  | _ => Err TypeError
  end.

(** [k in v] with a string [k] *)
Definition py_contains (v : json) (k : string) : res bool :=
  match v with
  | JObj l => Ok (match assoc k l with Some _ => true | None => false end)
  | JArr l => Ok (existsb (fun x => match x with JStr s => String.eqb s k | _ => false end) l)
  | JStr s => Ok (match String.index 0 k s with Some _ => true | None => false end)
  | _ => Err TypeError
  end.

Fixpoint string_chars (s : string) : list json :=
  match s with
  | EmptyString => []
  | String c s' => JStr (String c EmptyString) :: string_chars s'
  end.

(** [for x in v] *)
Definition py_iter (v : json) : res (list json) :=
  match v with
  | JArr l => Ok l
  | JObj l => Ok (map (fun kv => JStr (fst kv)) l)
  | JStr s => Ok (string_chars s)
  | _ => Err TypeError
  end.

(** [v[:n]] is only evaluated for its exception: strings and lists slice. *)
Definition py_slice_ok (v : json) : res unit :=
  match v with
  | JStr _ | JArr _ => Ok tt
  | _ => Err TypeError
  end.

(** [str.startswith] and [s[n:]] *)
Fixpoint drop (n : nat) (s : string) : string :=
  match n, s with
  | 0, _ => s
  | S n', String _ s' => drop n' s'
  | S _, EmptyString => EmptyString
  end.

(** [branch.replace('/', '_').replace('\\', '_')] *)
Fixpoint sanitize_branch_name (b : string) : string :=
  match b with
  | EmptyString => EmptyString
  | String c b' =>
      String (if (Ascii.eqb c "/"%char || Ascii.eqb c "092"%char)%bool then "_"%char else c)
             (sanitize_branch_name b')
  end.

(** ** Blobs, the container, and the local file system *)

Inductive blob : Type :=
| Raw (bytes : string)
| Doc (j : json).

(** The container: blob names to blobs, and the log of every upload the
    code attempted, with its outcome (most recent first). *)
Record store : Type := mkStore {
  blobs : gmap string blob;
  uploads : list (string * bool)
}.

(** A local directory: its name and its files (path relative to the
    directory, bytes), in the order [rglob('*')] yields them. *)
Record local_dir : Type := mkDir {
  dir_name : string;
  dir_files : list (string * string)
}.

(** The two clock readings a publish makes:
    [datetime.utcnow().isoformat()] and [datetime.now().isoformat()]. *)
Record clock : Type := mkClock { utc_now : string; local_now : string }.

(** The environment: SHA-256 (hex digest), [json.loads] on bytes that
    were not written as a JSON document, [json.dumps] of a document read
    as raw bytes, [str()] of a non-string JSON value used in an f-string,
    and whether an upload to a given blob name gets through. *)
Record env : Type := mkEnv {
  sha256_hex : string -> string;
  loads_bytes : string -> option json;
  dumps_doc : json -> string;
  str_other : json -> string;
  put_ok : string -> bool
}.

(** ** Blob names *)

Definition _get_branch_path (project_id branch : string) : string :=
  "projects/" ++ project_id ++ "/branches/" ++ sanitize_branch_name branch.

Definition _get_commit_path (project_id branch commit_sha : string) : string :=
  _get_branch_path project_id branch ++ "/commits/" ++ commit_sha.

Definition _get_metadata_path (project_id branch commit_sha : string) : string :=
  _get_commit_path project_id branch commit_sha ++ "/metadata.json".

Definition latest_path (project_id branch : string) : string :=
  _get_branch_path project_id branch ++ "/latest.json".

Definition parent_branch_path (project_id branch : string) : string :=
  _get_branch_path project_id branch ++ "/parent_branch.json".

Definition _get_content_object_path (content_hash : string) : string :=
  "objects/content/" ++ content_hash.

Definition base_branches_path (project_id : string) : string :=
  project_id ++ "/_base_branches.json".

(** ** A state and exception monad

    [ST S A] threads a state [S] (the container, or the local file system
    written by a download); an exception leaves the state as it was when
    raised, as in Python. *)

Definition ST (S A : Type) : Type := S -> res A * S.

Definition mret {S A} (a : A) : ST S A := fun s => (Ok a, s).

Definition mbind {S A B} (m : ST S A) (k : A -> ST S B) : ST S B :=
  fun s => match m s with
           | (Ok a, s') => k a s'
           | (Err e, s') => (Err e, s')
           end.

Definition lift {S A} (r : res A) : ST S A := fun s => (r, s).

Definition mget {S} : ST S S := fun s => (Ok s, s).

(** [try: m except Exception: h] *)
Definition mcatch {S A} (m : ST S A) (h : exn -> ST S A) : ST S A :=
  fun s => match m s with
           | (Err e, s') => h e s'
           | r => r
           end.

Notation "'let*' x ':=' m 'in' k" := (mbind m (fun x => k))
  (at level 200, x name, m at level 100, k at level 200).

Abbreviation CM := (ST store).
Abbreviation FM := (ST (gmap string string)).

Section BlobCache.

Variable E : env.

(** [str(v)] *)
Definition py_str (v : json) : string :=
  match v with JStr s => s | _ => str_other E v end.

(** [f"sha256-{hex_digest}"] *)
Definition _compute_file_hash (bytes : string) : string :=
  "sha256-" ++ sha256_hex E bytes.

(** [json.loads(blob.readall())], [None] when it raises *)
Definition parse_blob (b : blob) : option json :=
  match b with
  | Doc j => Some j
  | Raw s => loads_bytes E s
  end.

(** [download_blob().readall()] *)
Definition blob_bytes (b : blob) : string :=
  match b with
  | Raw s => s
  | Doc j => dumps_doc E j
  end.

(** A download followed by [json.loads]; any exception gives [None]. *)
Definition read_json (st : store) (name : string) : option json :=
  match blobs st !! name with
  | Some b => parse_blob b
  | None => None
  end.

Definition _get_metadata (st : store) (project_id branch commit_sha : string)
  : option json :=
  read_json st (_get_metadata_path project_id branch commit_sha).

Definition _get_branch_latest (st : store) (project_id branch : string) : option json :=
  read_json st (latest_path project_id branch).

Definition _get_base_branch_info (st : store) (project_id branch : string) : option json :=
  read_json st (parent_branch_path project_id branch).

(** [if metadata:] on the result of a read *)
Definition hit (o : option json) : option json :=
  match o with
  | Some j => if truthy j then Some j else None
  | None => None
  end.

(** ** [find_best_context] *)

Inductive strategy : Type := Exact | Incremental | CrossBranch | FullAnalysis.

Record resolution : Type := mkResolution {
  found : bool;
  res_commit : option json;
  res_metadata : option json;
  reuse_strategy : strategy;
  res_base_branch : option json
}.

Definition not_found : resolution := mkResolution false None None FullAnalysis None.

Definition find_best_context (st : store) (project_id branch commit_sha : string)
  (parent_commit : option string) : res resolution :=
  (* Level 1: exact commit *)
  match hit (_get_metadata st project_id branch commit_sha) with
  | Some md => Ok (mkResolution true (Some (JStr commit_sha)) (Some md) Exact None)
  | None =>
  (* Level 2: parent commit *)
  match (match parent_commit with
         | Some pc => if truthy (JStr pc)
                      then match hit (_get_metadata st project_id branch pc) with
                           | Some md => Some (pc, md) | None => None end
                      else None
         | None => None end) with
  | Some (pc, md) => Ok (mkResolution true (Some (JStr pc)) (Some md) Incremental None)
  | None =>
  (* Level 3: branch latest *)
  let level4 :=
    match hit (_get_base_branch_info st project_id branch) with
    | None => Ok not_found
    | Some info =>
        match py_getitem info "base_branch", py_getitem info "base_commit" with
        | Err e, _ => Err e
        | Ok _, Err e => Err e
        | Ok base_branch, Ok base_commit =>
            match py_slice_ok base_commit with
            | Err e => Err e
            | Ok _ =>
                match base_branch with
                | JStr bb =>
                    match hit (_get_metadata st project_id bb (py_str base_commit)) with
                    | Some md => Ok (mkResolution true (Some base_commit) (Some md)
                                                  CrossBranch (Some base_branch))
                    | None => Ok not_found
                    end
                | _ => Err AttributeError
                end
            end
        end
    end in
  match hit (_get_branch_latest st project_id branch) with
  | None => level4
  | Some info =>
      match py_get_opt info "commit_sha" with
      | Err e => Err e
      | Ok c =>
          let differs := match c with Some (JStr s) => negb (String.eqb s commit_sha)
                                      | _ => true end in
          if differs then
            match py_getitem info "commit_sha" with
            | Err e => Err e
            | Ok latest_commit =>
                match hit (_get_metadata st project_id branch (py_str latest_commit)) with
                | Some md =>
                    match py_slice_ok latest_commit with
                    | Err e => Err e
                    | Ok _ => Ok (mkResolution true (Some latest_commit) (Some md)
                                               Incremental None)
                    end
                | None => level4
                end
            end
          else level4
      end
  end
  end
  end.

(** ** Writes to the container *)

(** [blob_client.upload_blob(data, overwrite=...)]: raises when the
    service refuses the call, or when [overwrite=False] and the blob
    exists ([ResourceExistsError]). *)
Definition upload_blob (overwrite : bool) (name : string) (b : blob) : CM unit :=
  fun st =>
    let fresh := match blobs st !! name with Some _ => false | None => true end in
    if put_ok E name && (overwrite || fresh) then
      (Ok tt, mkStore (<[name := b]> (blobs st)) ((name, true) :: uploads st))
    else (Err AzureError, mkStore (blobs st) ((name, false) :: uploads st)).

(** [_content_exists] *)
Definition _content_exists (content_hash : string) : CM bool :=
  fun st => (Ok (match blobs st !! _get_content_object_path content_hash with
                 | Some _ => true | None => false end), st).

(** [_upload_content_object] *)
Definition _upload_content_object (bytes content_hash : string) : CM bool :=
  let* ex := _content_exists content_hash in
  if ex then mret true
  else mcatch (let* _ := upload_blob false (_get_content_object_path content_hash) (Raw bytes) in
               mret true)
              (fun _ => mret false).

(** [_update_branch_latest] *)
Definition _update_branch_latest (clk : clock) (project_id branch commit_sha : string)
  (metadata : json) : CM bool :=
  let* analysis := lift (py_get metadata "analysis" (JObj [])) in
  let* created_at := lift (py_get analysis "created_at" (JStr (local_now clk))) in
  let* analysis_type := lift (py_get analysis "type" (JStr "full")) in
  let latest_info := JObj [("commit_sha", JStr commit_sha);
                           ("created_at", created_at);
                           ("analysis_type", analysis_type)] in
  mcatch (let* _ := upload_blob true (latest_path project_id branch) (Doc latest_info) in
          mret true)
         (fun _ => mret false).

(** [record_branch_fork] *)
Definition record_branch_fork (clk : clock) (project_id new_branch base_branch base_commit
  fork_type : string) (created_by : option string) : CM bool :=
  let fork_info := JObj [("base_branch", JStr base_branch);
                         ("base_commit", JStr base_commit);
                         ("created_at", JStr (local_now clk));
                         ("fork_type", JStr fork_type);
                         ("created_by", match created_by with
                                        | Some u => JStr u | None => JNull end)] in
  mcatch (let* _ := upload_blob true (parent_branch_path project_id new_branch) (Doc fork_info) in
          mret true)
         (fun _ => mret false).

(** ** [_find_commit_in_other_branches] (a read; every exception inside
    its [try] ends the search with [None]) *)

Definition common_branches : list string := ["main"; "master"; "develop"; "dev"].

Fixpoint first_metadata (st : store) (project_id commit_sha : string)
  (branches : list string) : option json :=
  match branches with
  | [] => None
  | br :: rest =>
      match hit (_get_metadata st project_id br commit_sha) with
      | Some md => Some md
      | None => first_metadata st project_id commit_sha rest
      end
  end.

Definition _find_commit_in_other_branches (st : store) (project_id current_branch
  commit_sha : string) : option json :=
  match first_metadata st project_id commit_sha
          (List.filter (fun br => negb (String.eqb br current_branch)) common_branches) with
  | Some md => Some md
  | None =>
      match read_json st (base_branches_path project_id) with
      | Some (JObj l) =>
          first_metadata st project_id commit_sha
            (List.filter (fun br => negb (String.eqb br current_branch)
                               && negb (existsb (String.eqb br) common_branches))
                    (map fst l))
      | _ => None
      end
  end.

(** ** The full publish of [upload_context_with_dedup] *)

(** The [stats] counters. *)
Record counts : Type := mkCounts {
  total_files : nat;
  inherited_files : nat;
  updated_files : nat;
  new_files : nat;
  uploaded_objects : nat
}.

Definition zero_counts : counts := mkCounts 0 0 0 0 0.

Inductive source : Type := New | Updated | Inherited.

Definition source_name (s : source) : string :=
  match s with New => "new" | Updated => "updated" | Inherited => "inherited" end.

(** The pairs of [{obj["file_path"]: obj["content_hash"] for obj in ...}],
    in insertion order; a list or dict key is unhashable. *)
Fixpoint parent_pairs (objs : list json) : res (list (json * json)) :=
  match objs with
  | [] => Ok []
  | obj :: rest =>
      match py_getitem obj "file_path" with
      | Err e => Err e
      | Ok k =>
          match py_getitem obj "content_hash" with
          | Err e => Err e
          | Ok v =>
              match k with
              | JArr _ | JObj _ => Err TypeError
              | _ => match parent_pairs rest with
                     | Err e => Err e
                     | Ok l => Ok ((k, v) :: l)
                     end
              end
          end
      end
  end.

(** [parent_objects] *)
Definition build_parent_objects (parent_metadata : option json) : res (list (json * json)) :=
  match parent_metadata with
  | Some pm =>
      if truthy pm then
        match py_contains pm "content_objects" with
        | Err e => Err e
        | Ok false => Ok []
        | Ok true =>
            match py_getitem pm "content_objects" with
            | Err e => Err e
            | Ok cos => match py_iter cos with
                        | Err e => Err e
                        | Ok objs => parent_pairs objs
                        end
            end
        end
      else Ok []
  | None => Ok []
  end.

(** [parent_objects[rel_path]] for a string key: the last value assigned
    to that key, [None] when [rel_path not in parent_objects]. *)
Fixpoint dict_lookup_str (s : string) (l : list (json * json)) : option json :=
  match l with
  | [] => None
  | (k, v) :: rest =>
      match dict_lookup_str s rest with
      | Some x => Some x
      | None => match k with
                | JStr s' => if String.eqb s' s then Some v else None
                | _ => None
                end
      end
  end.

(** [content_hash == parent_hash] *)
Definition json_eq_str (v : json) (s : string) : bool :=
  match v with JStr s' => String.eqb s' s | _ => false end.

(** The [source] and [source_commit] of one file. *)
Definition classify (commit_sha : string) (parent_metadata : option json)
  (parent_objects : list (json * json)) (rel_path content_hash : string)
  : res (source * json) :=
  match dict_lookup_str rel_path parent_objects with
  | Some parent_hash =>
      if json_eq_str parent_hash content_hash then
        match parent_metadata with
        | Some pm => match py_get pm "commit_sha" (JStr "unknown") with
                     | Ok sc => Ok (Inherited, sc)
                     | Err e => Err e
                     end
        | None => Err AttributeError
        end
      else Ok (Updated, JStr commit_sha)
  | None => Ok (New, JStr commit_sha)
  end.

Definition count_file (cnt : counts) (src : source) : counts :=
  match src with
  | Inherited => mkCounts (S (total_files cnt)) (S (inherited_files cnt))
                          (updated_files cnt) (new_files cnt) (uploaded_objects cnt)
  | Updated => mkCounts (S (total_files cnt)) (inherited_files cnt)
                        (S (updated_files cnt)) (new_files cnt) (uploaded_objects cnt)
  | New => mkCounts (S (total_files cnt)) (inherited_files cnt)
                    (updated_files cnt) (S (new_files cnt)) (uploaded_objects cnt)
  end.

Definition count_upload (cnt : counts) : counts :=
  mkCounts (total_files cnt) (inherited_files cnt) (updated_files cnt)
           (new_files cnt) (S (uploaded_objects cnt)).

Definition content_object_entry (rel_path content_hash : string) (size : nat)
  (src : source) (source_commit : json) : json :=
  JObj [("file_path", JStr rel_path);
        ("content_hash", JStr content_hash);
        ("size", JNum (inject_Z (Z.of_nat size)));
        ("source", JStr (source_name src));
        ("source_commit", source_commit)].

(** The [for file_path in local_dir.rglob('*')] loop; [None] is its
    [return False] after a failed content-object upload. *)
Fixpoint scan_files (dname commit_sha : string) (parent_metadata : option json)
  (parent_objects : list (json * json)) (files : list (string * string))
  (cnt : counts) (acc : list json) : CM (option (counts * list json)) :=
  match files with
  | [] => mret (Some (cnt, acc))
  | (rp, bytes) :: rest =>
      let rel_path := dname ++ "/" ++ rp in
      let content_hash := _compute_file_hash bytes in
      let* cls := lift (classify commit_sha parent_metadata parent_objects rel_path content_hash) in
      let cnt1 := count_file cnt (fst cls) in
      let acc1 := (acc ++ [content_object_entry rel_path content_hash
                             (String.length bytes) (fst cls) (snd cls)])%list in
      let* ex := _content_exists content_hash in
      if ex then scan_files dname commit_sha parent_metadata parent_objects rest cnt1 acc1
      else
        let* ok := _upload_content_object bytes content_hash in
        if ok then scan_files dname commit_sha parent_metadata parent_objects rest
                              (count_upload cnt1) acc1
        else mret None
  end.

(** Python floats are IEEE 754 binary64 numbers ([SpecFloat] with 53 bits
    of precision and exponent bound 1024); [f64_value] is the number a
    finite one stands for, which [json.dumps] writes out exactly enough to
    be read back. *)
Definition f64_value (x : SpecFloat.spec_float) : Q :=
  match x with
  | SpecFloat.S754_finite s m e =>
      let v := match e with
               | Zneg p => (Zpos m # Pos.pow 2 p)%Q
               | _ => inject_Z (Zpos m * 2 ^ e)
               end in
      if s then (- v)%Q else v
  | _ => 0%Q
  end.

(** [m / n] on two positive Python ints: the binary64 number nearest to
    the quotient, ties to even (CPython's true division of ints is
    correctly rounded). *)
Definition f64_div_pos (m n : positive) : SpecFloat.spec_float :=
  SpecFloat.SFdiv 53 1024 (SpecFloat.S754_finite false m 0) (SpecFloat.S754_finite false n 0).

(** [i / t] for ints [i >= 0], [t > 0]; [0 / t] is [0.0]. *)
Definition int_truediv (i t : nat) : SpecFloat.spec_float :=
  match i with
  | O => SpecFloat.S754_zero false
  | S _ => f64_div_pos (Pos.of_nat i) (Pos.of_nat t)
  end.

(** The integer nearest to [y], ties to even. *)
Definition round_half_even (y : Q) : Z :=
  let n := Qfloor y in
  let fr := (y - inject_Z n)%Q in
  if negb (Qle_bool (1 # 2) fr) then n
  else if negb (Qle_bool fr (1 # 2)) then (n + 1)%Z
  else if Z.even n then n else (n + 1)%Z.

(** [round(x, 4)] on a float: CPython rounds the exact value of [x] to four
    decimal places (ties to even) and returns the float nearest to that
    decimal. *)
Definition float_round4 (x : SpecFloat.spec_float) : SpecFloat.spec_float :=
  match round_half_even (f64_value x * (10000 # 1))%Q with
  | Z0 => SpecFloat.S754_zero false
  | Zpos n => f64_div_pos n 10000
  | Zneg n => SpecFloat.SFopp (f64_div_pos n 10000)
  end.

(** [round(dedup_ratio, 4)] as stored, where [dedup_ratio] is
    [inherited_files / total_files] when [total_files > 0] and the int [0]
    otherwise ([round(0, 4)] is [0]). *)
Definition deduplication_ratio (cnt : counts) : Q :=
  if Nat.ltb 0 (total_files cnt)
  then f64_value (float_round4 (int_truediv (inherited_files cnt) (total_files cnt)))
  else 0%Q.

Definition nat_json (n : nat) : json := JNum (inject_Z (Z.of_nat n)).

Definition metadata_doc (clk : clock) (project_id branch commit_sha : string)
  (cnt : counts) (content_objects : list json) : json :=
  JObj [("commit_sha", JStr commit_sha);
        ("branch", JStr branch);
        ("project_id", JStr project_id);
        ("created_at", JStr (utc_now clk ++ "Z"));
        ("content_objects", JArr content_objects);
        ("stats", JObj [("total_files", nat_json (total_files cnt));
                        ("inherited_files", nat_json (inherited_files cnt));
                        ("updated_files", nat_json (updated_files cnt));
                        ("new_files", nat_json (new_files cnt));
                        ("deduplication_ratio", JNum (deduplication_ratio cnt))])].

Definition publish_full (clk : clock) (d : local_dir) (project_id branch commit_sha : string)
  (parent_metadata : option json) : CM bool :=
  let* parent_objects := lift (build_parent_objects parent_metadata) in
  let* r := scan_files (dir_name d) commit_sha parent_metadata parent_objects
                       (dir_files d) zero_counts [] in
  match r with
  | None => mret false
  | Some (cnt, content_objects) =>
      let metadata := metadata_doc clk project_id branch commit_sha cnt content_objects in
      let* ok := mcatch (let* _ := upload_blob true (_get_metadata_path project_id branch commit_sha)
                                               (Doc metadata) in
                         mret true)
                        (fun _ => mret false) in
      if ok then
        let* _ := _update_branch_latest clk project_id branch commit_sha metadata in
        mret true
      else mret false
  end.

(** ** The cross-branch reference metadata *)

Definition reference_metadata (clk : clock) (project_id branch commit_sha : string)
  (cross : json) : res json :=
  match py_get cross "branch" (JStr "unknown") with
  | Err e => Err e
  | Ok source_branch =>
      match py_get cross "content_objects" (JArr []) with
      | Err e => Err e
      | Ok cos =>
          match py_get cross "stats" (JObj []) with
          | Err e => Err e
          | Ok stats =>
              Ok (JObj [("commit_sha", JStr commit_sha);
                        ("branch", JStr branch);
                        ("project_id", JStr project_id);
                        ("created_at", JStr (utc_now clk ++ "Z"));
                        ("content_objects", cos);
                        ("stats", stats);
                        ("reference_from", JObj [("branch", source_branch);
                                                 ("commit_sha", JStr commit_sha)])])
          end
      end
  end.

(** The [try] block that writes the reference metadata: [true] is its
    [return True], [false] falls through to the full publish. *)
Definition try_reference (clk : clock) (project_id branch commit_sha : string)
  (reference : json) : CM bool :=
  mcatch (let* _ := upload_blob true (_get_metadata_path project_id branch commit_sha)
                                (Doc reference) in
          let* _ := _update_branch_latest clk project_id branch commit_sha reference in
          mret true)
         (fun _ => mret false).

(** [upload_context_with_dedup]; [None] is a [local_dir] that does not
    exist. *)
Definition upload_context_with_dedup (clk : clock) (local_dir : option local_dir)
  (project_id branch commit_sha : string) (parent_metadata : option json) : CM bool :=
  match local_dir with
  | None => mret false
  | Some d =>
      let* st := mget in
      match hit (_get_metadata st project_id branch commit_sha) with
      | Some _ => mret true
      | None =>
          match _find_commit_in_other_branches st project_id branch commit_sha with
          | Some cross =>
              let* reference := lift (reference_metadata clk project_id branch commit_sha cross) in
              let* done := try_reference clk project_id branch commit_sha reference in
              if done then mret true
              else publish_full clk d project_id branch commit_sha parent_metadata
          | None => publish_full clk d project_id branch commit_sha parent_metadata
          end
      end
  end.

(** ** [download_context]

    The local file system is a map from paths relative to the destination
    directory to file contents; [../x] is a path next to it.  The map has
    no directories: it describes a destination whose paths never clash
    (no file where a directory is needed, no directory where a file is
    written), as when it starts empty and the entries come from the files
    of one real directory.  The [FileExistsError] of
    [local_file.parent.mkdir] and the failed [open] on a directory are not
    represented, and paths are kept as written, not resolved. *)

(** [if file_path.startswith(".copilot/"): file_path = file_path[len(".copilot/"):]] *)
Definition strip_copilot (file_path : string) : string :=
  if String.prefix ".copilot/" file_path then drop 9 file_path else file_path.

(** [_download_content_object]: the file is opened for writing (and so
    truncated) before the download is attempted. *)
Definition _download_content_object (st : store) (content_hash : json) (local_path : string)
  : FM bool :=
  fun fs =>
    let fs1 := <[local_path := ""]> fs in
    match blobs st !! _get_content_object_path (py_str content_hash) with
    | Some b => (Ok true, <[local_path := blob_bytes b]> fs1)
    | None => (Ok false, fs1)
    end.

(** The loop over [content_objects]; returns [failed_count]. *)
Fixpoint download_objects (st : store) (objs : list json) (failed : nat) : FM nat :=
  match objs with
  | [] => mret failed
  | obj :: rest =>
      let* file_path := lift (py_getitem obj "file_path") in
      let* content_hash := lift (py_getitem obj "content_hash") in
      let* local_file := lift (match file_path with
                               | JStr s => Ok (strip_copilot s)
                               | _ => Err AttributeError
                               end) in
      let* ok := _download_content_object st content_hash local_file in
      if ok then
        let* _ := lift (py_slice_ok content_hash) in
        download_objects st rest failed
      else download_objects st rest (S failed)
  end.

Definition _get_blob_prefix (project_id branch : string) : string :=
  project_id ++ "/" ++ sanitize_branch_name branch.

(** [_download_context_legacy]: every blob under [{prefix}/{commit}/] is
    written to [local_dir.parent / rel_path], in the same clash-free file
    map (so its [except] branch, taken on a failed local write, does not
    arise here). *)
Definition _download_context_legacy (st : store) (project_id branch commit_sha : string)
  : FM bool :=
  let prefix := _get_blob_prefix project_id branch ++ "/" ++ commit_sha ++ "/" in
  let listed := List.filter (fun nb => String.prefix prefix (fst nb)) (map_to_list (blobs st)) in
  fun fs =>
    let fs' := fold_left (fun acc nb =>
                 <[("../" ++ drop (String.length prefix) (fst nb))%string := blob_bytes (snd nb)]> acc)
               listed fs in
    (Ok (negb (Nat.eqb (length listed) 0)), fs').

Definition download_context (st : store) (project_id branch commit_sha : string) : FM bool :=
  match hit (_get_metadata st project_id branch commit_sha) with
  | None => mret false
  | Some metadata =>
      let* has := lift (py_contains metadata "content_objects") in
      if negb has then _download_context_legacy st project_id branch commit_sha
      else
        let* content_objects := lift (py_getitem metadata "content_objects") in
        let* objs := lift (py_iter content_objects) in
        let* failed := download_objects st objs 0 in
        mret (Nat.eqb failed 0)
  end.

End BlobCache.

(** ** The rest of [BlobCache] *)

Section BlobCacheMore.

Variable E : env.

(** [_calculate_similarity]: the Jaccard similarity of two sets, on the
    exact quotient (the code returns the nearest float). *)
Definition _calculate_similarity (tree1 tree2 : gset string) : Q :=
  if Nat.eqb (size tree1) 0 && Nat.eqb (size tree2) 0 then 1
  else if Nat.eqb (size tree1) 0 || Nat.eqb (size tree2) 0 then 0
  else
    let intersection := size (tree1 ∩ tree2) in
    let union := size (tree1 ∪ tree2) in
    if Nat.ltb 0 union
    then (inject_Z (Z.of_nat intersection) / inject_Z (Z.of_nat union))%Q
    else 0.

(** [_get_blob_path] (the old layout) *)
Definition _get_blob_path (project_id branch commit_sha filename : string) : string :=
  _get_blob_prefix project_id branch ++ "/" ++ commit_sha ++ "/" ++ filename.

(** [upload_context]: the deprecated entry point, without a parent. *)
Definition upload_context (clk : clock) (local_dir : option local_dir)
  (project_id branch commit_sha : string) : CM bool :=
  upload_context_with_dedup E clk local_dir project_id branch commit_sha None.

End BlobCacheMore.

(** [s.split('/')[0]] *)
Fixpoint first_segment (s : string) : string :=
  match s with
  | EmptyString => EmptyString
  | String c s' => if Ascii.eqb c "/"%char then EmptyString else String c (first_segment s')
  end.

(** Python's [<=] on strings: lexicographic on characters. *)
Definition str_le (s1 s2 : string) : Prop := String.leb s1 s2 = true.

#[global] Instance str_le_dec : RelDecision str_le :=
  fun s1 s2 => decide (String.leb s1 s2 = true).

(** [container_client.list_blobs(name_starts_with=prefix)]: the names of
    the blobs under [prefix] (the listing itself is taken not to fail). *)
Definition list_blob_names (st : store) (prefix : string) : list string :=
  List.filter (fun n => String.prefix prefix n) (map fst (map_to_list (blobs st))).

(** [find_latest_context]: the set of first path segments under
    [{project_id}/{branch}/], and the last of them in sorted order. *)
Definition find_latest_context (st : store) (project_id branch : string) : option string :=
  let prefix := _get_blob_prefix project_id branch ++ "/" in
  let commits : gset string :=
    list_to_set (map (fun n => first_segment (drop (String.length prefix) n))
                     (list_blob_names st prefix)) in
  if Nat.eqb (size commits) 0 then None
  else last (merge_sort str_le (elements commits)).

(** ** Runs on small inputs *)

(** An environment in which every upload gets through and the digest of a
    byte string is the byte string itself. *)
Definition env_ok : env :=
  mkEnv (fun s => s) (fun _ => None) (fun _ => "") (fun _ => "?") (fun _ => true).

Definition empty_store : store := mkStore ∅ [].

Definition clk0 : clock := mkClock "2024-01-01T00:00:00" "2024-01-01T08:00:00".

Definition dirA : local_dir := mkDir ".copilot" [("f1", "x"); ("f2", "y")].
Definition dirB : local_dir := mkDir ".copilot" [("f1", "x"); ("f2", "z")].

(** ** Resolution, as the claims describe it *)

(** [commit_sha] of a [latest.json] document, when it is a string. *)
Definition latest_commit_of (j : json) : option string :=
  match j with
  | JObj l => match assoc "commit_sha" l with Some (JStr s) => Some s | _ => None end
  | _ => None
  end.

(** [base_branch] and [base_commit] of a [parent_branch.json] document. *)
Definition fork_of (j : json) : option (string * string) :=
  match j with
  | JObj l => match assoc "base_branch" l, assoc "base_commit" l with
              | Some (JStr bb), Some (JStr bc) => Some (bb, bc)
              | _, _ => None
              end
  | _ => None
  end.

Section SpecSide.

Variable E : env.

(** The tiers of the resolver, from the spec's words: exact commit, parent
    commit (when one is given), branch latest (when it is another commit),
    base-branch fork; the first one whose metadata read is a hit wins. *)
Definition resolve_tiers (st : store) (p b c : string) (pc : option string) : resolution :=
  let tier br cm strat base (k : resolution) :=
    match hit (_get_metadata E st p br cm) with
    | Some md => mkResolution true (Some (JStr cm)) (Some md) strat base
    | None => k
    end in
  let fork_tier :=
    match hit (_get_base_branch_info E st p b) with
    | Some j => match fork_of j with
                | Some (bb, bc) => tier bb bc CrossBranch (Some (JStr bb)) not_found
                | None => not_found
                end
    | None => not_found
    end in
  let latest_tier :=
    match hit (_get_branch_latest E st p b) with
    | Some j => match latest_commit_of j with
                | Some s => if String.eqb s c then fork_tier
                            else tier b s Incremental None fork_tier
                | None => fork_tier
                end
    | None => fork_tier
    end in
  let parent_tier :=
    match pc with
    | Some s => if String.eqb s "" then latest_tier else tier b s Incremental None latest_tier
    | None => latest_tier
    end in
  tier b c Exact None parent_tier.

(** The branch pointers hold what the code writes: a non-empty
    [latest.json] names its commit, a non-empty [parent_branch.json] its
    base branch and commit. *)
Definition pointers_wf (st : store) (p b : string) : Prop :=
  match hit (_get_branch_latest E st p b) with
  | Some j => latest_commit_of j <> None
  | None => True
  end /\
  match hit (_get_base_branch_info E st p b) with
  | Some j => fork_of j <> None
  | None => True
  end.

Definition with_blob (st : store) (name : string) (b : blob) : store :=
  mkStore (<[name := b]> (blobs st)) (uploads st).

Definition without_blob (st : store) (name : string) : store :=
  mkStore (delete name (blobs st)) (uploads st).

End SpecSide.

(** ** Stores for the runs *)

Definition md_c1 : json := JObj [("commit_sha", JStr "c1")].

(** An empty document at the exact key, metadata at the parent key. *)
Definition st_empty_exact : store :=
  mkStore (<[_get_metadata_path "p" "main" "c2" := Doc (JObj [])]>
             (<[_get_metadata_path "p" "main" "c1" := Doc md_c1]> ∅)) [].

(** Metadata at [c1] and a [latest.json] pointing at it. *)
Definition st_latest : store :=
  mkStore (<[latest_path "p" "main" := Doc (JObj [("commit_sha", JStr "c1")])]>
             (<[_get_metadata_path "p" "main" "c1" := Doc md_c1]> ∅)) [].

(** Content objects live under [objects/], everything else the code
    writes under [projects/]. *)
Definition under_projects (name : string) : Prop := exists x, name = ("projects/" ++ x)%string.

(** ** Invariants of the container *)

Section Invariants.

Variable E : env.

(** The blob at the content key of the digest of [s], if any, holds [s]. *)
Definition content_ok (st : store) : Prop :=
  forall s b, blobs st !! _get_content_object_path (_compute_file_hash E s) = Some b ->
              b = Raw s.

(** The content hashes a document lists, as [download_context] reads them
    ([str(obj["content_hash"])] of each entry of its [content_objects]). *)
Definition entry_hash (o : json) : list string :=
  match o with
  | JObj l => match assoc "content_hash" l with Some v => [py_str E v] | None => [] end
  | _ => []
  end.

Definition referenced_hashes (md : json) : list string :=
  match md with
  | JObj l => match assoc "content_objects" l with
              | Some (JArr objs) => flat_map entry_hash objs
              | _ => []
              end
  | _ => []
  end.

End Invariants.

(** Every content object a readable document under [projects/] lists is
    stored. *)
Definition refs_ok (E : env) (st : store) : Prop :=
  forall name md h, under_projects name -> read_json E st name = Some md ->
    In h (referenced_hashes E md) -> blobs st !! _get_content_object_path h <> None.

(** Successful writes of the content object of hash [h] in a log. *)
Definition writes_of (h : string) (log : list (string * bool)) : nat :=
  length (List.filter (fun e => String.eqb (fst e) (_get_content_object_path h) && snd e) log).

(** The classification rule of the spec: equal hash at the same path in the
    parent is inherited, a path absent from the parent is new, anything else
    is updated. *)
Definition file_class (parent_hash : option json) (content_hash : string) : source :=
  match parent_hash with
  | None => New
  | Some (JStr h) => if String.eqb h content_hash then Inherited else Updated
  | Some _ => Updated
  end.

Definition source_eqb (a b : source) : bool :=
  match a, b with
  | New, New | Updated, Updated | Inherited, Inherited => true
  | _, _ => false
  end.

Definition count_class (s : source) (l : list source) : nat :=
  length (List.filter (source_eqb s) l).

(** A field of the [stats] of a metadata document. *)
Definition md_stat (md : json) (k : string) : option json :=
  match md with
  | JObj l => match assoc "stats" l with Some (JObj s) => assoc k s | _ => None end
  | _ => None
  end.

Definition md_field (md : json) (k : string) : option json :=
  match md with JObj l => assoc k l | _ => None end.


(** Content objects present before are present, with the same bytes, after. *)
Definition content_kept (st st' : store) : Prop :=
  forall h b, blobs st !! _get_content_object_path h = Some b ->
              blobs st' !! _get_content_object_path h = Some b.


(** The classes the spec's rule gives the files of a directory. *)
Definition file_classes (E : env) (dname : string) (pobjs : list (json * json))
  (files : list (string * string)) : list source :=
  map (fun f => file_class (dict_lookup_str (dname ++ "/" ++ fst f) pobjs)
                           (_compute_file_hash E (snd f))) files.

(** The two outcomes of an upload: stored and logged, or refused and logged. *)
Definition stored (st : store) (name : string) (b : blob) : store :=
  mkStore (<[name := b]> (blobs st)) ((name, true) :: uploads st).

Definition refused (st : store) (name : string) : store :=
  mkStore (blobs st) ((name, false) :: uploads st).

(** The [latest.json] document [_update_branch_latest] writes for a
    metadata document without an [analysis] section. *)
Definition latest_doc (clk : clock) (commit_sha : string) : json :=
  JObj [("commit_sha", JStr commit_sha);
        ("created_at", JStr (local_now clk));
        ("analysis_type", JStr "full")].

(** Blobs under [projects/] are unchanged. *)
Definition projects_kept (st st' : store) : Prop :=
  forall name, under_projects name -> blobs st' !! name = blobs st !! name.

(** The upload log only grows at its head, by uploads of content objects. *)
Definition content_log (st st' : store) : Prop :=
  exists log, uploads st' = (log ++ uploads st)%list /\
              Forall (fun e => exists h, fst e = _get_content_object_path h) log.

(** An environment whose container refuses every write of the branch
    pointer [projects/p/branches/main/latest.json]. *)
Definition env_nolatest : env :=
  mkEnv (fun s => s) (fun _ => None) (fun _ => "") (fun _ => "?")
        (fun name => negb (String.eqb name (latest_path "p" "main"))).

(** An environment whose container refuses the metadata write of
    [(p, feature, c1)]. *)
Definition env_nometa : env :=
  mkEnv (fun s => s) (fun _ => None) (fun _ => "") (fun _ => "?")
        (fun name => negb (String.eqb name (_get_metadata_path "p" "feature" "c1"))).

(** Two files with the same bytes. *)
Definition dir_dup : local_dir := mkDir ".copilot" [("a", "x"); ("b", "x")].

(** [main] holds metadata for [c1] that lists no content objects. *)
Definition st_main_nocos : store :=
  mkStore (<[_get_metadata_path "p" "main" "c1" :=
               Doc (JObj [("commit_sha", JStr "c1"); ("content_objects", JArr [])])]> ∅) [].

Definition dir_empty : local_dir := mkDir ".copilot" [].

(** [main] holds metadata for [c1] listing one content object. *)
Definition st_main_cos : store :=
  mkStore (<[_get_metadata_path "p" "main" "c1" :=
               Doc (JObj [("commit_sha", JStr "c1");
                          ("content_objects",
                             JArr [content_object_entry ".copilot/f1" "sha256-x" 1 New (JStr "c1")])])]>
             ∅) [].

(** Only [feature] holds metadata for [c1]. *)
Definition st_feature_only : store :=
  mkStore (<[_get_metadata_path "p" "feature" "c1" :=
               Doc (JObj [("commit_sha", JStr "c1"); ("content_objects", JArr [])])]> ∅) [].

(** The spec's scenario: [dirA] published at [C1], then [dirB] at [C2]
    with [C1]'s metadata as parent. *)
Definition scenario_c1 : store :=
  snd (upload_context_with_dedup env_ok clk0 (Some dirA) "p" "main" "C1" None empty_store).

Definition scenario_md1 : option json :=
  read_json env_ok scenario_c1 (_get_metadata_path "p" "main" "C1").

Definition scenario_c2 : store :=
  snd (upload_context_with_dedup env_ok clk0 (Some dirB) "p" "main" "C2" scenario_md1 scenario_c1).

Definition scenario_md2 : option json :=
  read_json env_ok scenario_c2 (_get_metadata_path "p" "main" "C2").

(** Three files against [C1]: one inherited, one updated, one new. *)
Definition dir3 : local_dir := mkDir ".copilot" [("f1", "x"); ("f2", "q"); ("f3", "z")].

Definition scenario_md3 : option json :=
  read_json env_ok
    (snd (upload_context_with_dedup env_ok clk0 (Some dir3) "p" "main" "C3" scenario_md1 scenario_c1))
    (_get_metadata_path "p" "main" "C3").

(** A directory that is not named [.copilot]. *)
Definition dir_ctx : local_dir := mkDir "ctx" [("f1", "x")].

(** A string read backwards. *)
Fixpoint srev (s : string) : string :=
  match s with
  | EmptyString => EmptyString
  | String c s' => (srev s' ++ String c EmptyString)%string
  end.

(** The string holds no ['/']. *)
Definition no_slash (s : string) : Prop := ~ In "/"%char (list_ascii_of_string s).

(** The blobs a run may change: every blob whose name fails [W] is kept. *)
Definition changed_within (W : string -> Prop) (st st' : store) : Prop :=
  forall name, ~ W name -> blobs st' !! name = blobs st !! name.

(** The names a publish of [(p, b, c)] may write: the metadata of the
    commit, the branch pointer and content objects. *)
Definition publish_names (p b c name : string) : Prop :=
  name = _get_metadata_path p b c \/ name = latest_path p b \/
  exists h, name = _get_content_object_path h.

(** The document [record_branch_fork] writes. *)
Definition fork_info (clk : clock) (base_branch base_commit fork_type : string)
  (created_by : option string) : json :=
  JObj [("base_branch", JStr base_branch);
        ("base_commit", JStr base_commit);
        ("created_at", JStr (local_now clk));
        ("fork_type", JStr fork_type);
        ("created_by", match created_by with Some u => JStr u | None => JNull end)].

(** The branches [_find_commit_in_other_branches] reads, in its order:
    the conventional base branches, then the keys of
    [_base_branches.json], without the current branch and without the
    conventional ones a second time. *)
Definition other_branch_order (E : env) (st : store) (project_id current_branch : string)
  : list string :=
  (List.filter (fun br => negb (String.eqb br current_branch)) common_branches ++
   match read_json E st (base_branches_path project_id) with
   | Some (JObj l) =>
       List.filter (fun br => negb (String.eqb br current_branch)
                              && negb (existsb (String.eqb br) common_branches))
                   (map fst l)
   | _ => []
   end)%list.

(** A run of [m] from any store ends in a store related to it. *)
Definition respects {A} (R : store -> store -> Prop) (m : CM A) : Prop :=
  forall st, R st (snd (m st)).

(** ** Blob names: the facts the proofs use *)

Lemma sapp_cons (x : ascii) (a b : string) : (String x a ++ b)%string = String x (a ++ b).
Proof. reflexivity. Qed.

Lemma sapp_nil (b : string) : ("" ++ b)%string = b.
Proof. reflexivity. Qed.

Lemma sapp_assoc (a b c : string) : ((a ++ b) ++ c)%string = (a ++ (b ++ c))%string.
Proof. induction a as [|x a IH]; [reflexivity|]. rewrite !sapp_cons. congruence. Qed.

Lemma sapp_cancel_l (a b c : string) : (a ++ b)%string = (a ++ c)%string -> b = c.
Proof.
  induction a as [|x a IH]; intros H; [exact H|].
  rewrite !sapp_cons in H. injection H. auto.
Qed.

Lemma metadata_ne_latest p b c : _get_metadata_path p b c <> latest_path p b.
Proof.
  unfold _get_metadata_path, _get_commit_path, latest_path.
  rewrite sapp_assoc. intros H. apply sapp_cancel_l in H. discriminate H.
Qed.

Lemma metadata_ne_parent_branch p b c : _get_metadata_path p b c <> parent_branch_path p b.
Proof.
  unfold _get_metadata_path, _get_commit_path, parent_branch_path.
  rewrite sapp_assoc. intros H. apply sapp_cancel_l in H. discriminate H.
Qed.


Lemma content_ne_projects h name : under_projects name -> _get_content_object_path h <> name.
Proof. intros [x ->]. discriminate. Qed.

Lemma metadata_under_projects p b c : under_projects (_get_metadata_path p b c).
Proof.
  unfold _get_metadata_path, _get_commit_path, _get_branch_path.
  eexists. rewrite !sapp_assoc. reflexivity.
Qed.

Lemma latest_under_projects p b : under_projects (latest_path p b).
Proof. unfold latest_path, _get_branch_path. eexists. rewrite !sapp_assoc. reflexivity. Qed.

Lemma parent_branch_under_projects p b : under_projects (parent_branch_path p b).
Proof. unfold parent_branch_path, _get_branch_path. eexists. rewrite !sapp_assoc. reflexivity. Qed.

Lemma content_path_inj h1 h2 :
  _get_content_object_path h1 = _get_content_object_path h2 -> h1 = h2.
Proof. apply sapp_cancel_l. Qed.

Create HintDb blobnames.
Global Hint Resolve metadata_under_projects latest_under_projects
  parent_branch_under_projects : blobnames.

(** ** The monad: runs that respect a relation between stores *)

Section Respects.

Variable R : store -> store -> Prop.
Hypothesis R_refl : forall st, R st st.
Hypothesis R_trans : forall s1 s2 s3, R s1 s2 -> R s2 s3 -> R s1 s3.

Lemma respects_ret {A} (a : A) : respects R (mret a).
Proof. intros st. apply R_refl. Qed.

Lemma respects_lift {A} (r : res A) : respects R (lift r).
Proof. intros st. apply R_refl. Qed.

Lemma respects_get : respects R mget.
Proof. intros st. apply R_refl. Qed.

Lemma respects_bind {A B} (m : CM A) (k : A -> CM B) :
  respects R m -> (forall a, respects R (k a)) -> respects R (mbind m k).
Proof.
  intros Hm Hk st. unfold mbind. specialize (Hm st).
  destruct (m st) as [[a|e] st']; simpl in *; [|exact Hm].
  eapply R_trans; [exact Hm | apply Hk].
Qed.

Lemma respects_catch {A} (m : CM A) (h : exn -> CM A) :
  respects R m -> (forall e, respects R (h e)) -> respects R (mcatch m h).
Proof.
  intros Hm Hh st. unfold mcatch. specialize (Hm st).
  destruct (m st) as [[a|e] st']; simpl in *; [exact Hm|].
  eapply R_trans; [exact Hm | apply Hh].
Qed.

End Respects.


Section Resolution.

Variable E : env.

Lemma read_json_unparsable (st : store) (name s : string) :
  loads_bytes E s = None ->
  forall k, read_json E (with_blob st name (Raw s)) k = read_json E (without_blob st name) k.
Proof.
  intros Hs k. unfold read_json, with_blob, without_blob; simpl.
  destruct (decide (k = name)) as [->|Hne].
  - rewrite lookup_insert_eq, lookup_delete_eq. exact Hs.
  - rewrite lookup_insert_ne, lookup_delete_ne by congruence. reflexivity.
Qed.

Lemma find_best_context_reads (st1 st2 : store) :
  (forall k, read_json E st1 k = read_json E st2 k) ->
  forall p b c pc, find_best_context E st1 p b c pc = find_best_context E st2 p b c pc.
Proof.
  intros H p b c pc.
  assert (Hf : read_json E st1 = read_json E st2) by (extensionality k; apply H).
  unfold find_best_context, _get_metadata, _get_branch_latest, _get_base_branch_info.
  rewrite Hf. reflexivity.
Qed.

(** C9: a metadata document that does not parse reads as [None] and
    changes nothing in [find_best_context]: the resolver answers exactly as
    if the blob were absent (the same holds for any blob it reads). *)
Theorem malformed_metadata_reads_as_absent (st : store) (name s : string)
  (Hs : loads_bytes E s = None) :
  (forall p b c, name = _get_metadata_path p b c ->
                 _get_metadata E (with_blob st name (Raw s)) p b c = None) /\
  (forall p b c pc, find_best_context E (with_blob st name (Raw s)) p b c pc =
                    find_best_context E (without_blob st name) p b c pc).
Proof.
  split.
  - intros p b c ->. unfold _get_metadata, read_json, with_blob; simpl.
    rewrite lookup_insert_eq. exact Hs.
  - apply find_best_context_reads, read_json_unparsable, Hs.
Qed.

(** C1 (amended): with branch pointers as the code writes them,
    [find_best_context] is the first hit among exact commit, parent commit
    (when given and non-empty), branch latest (when another commit) and
    base-branch fork, with strategies exact, incremental, incremental,
    cross-branch, and [found = false] / full analysis when all miss; a tier
    hits when its document parses to a non-empty JSON value.  A hit at the
    exact commit wins whatever the pointers hold. *)
Theorem find_best_context_tiers (st : store) (p b c : string) (pc : option string) :
  (forall md, hit (_get_metadata E st p b c) = Some md ->
     find_best_context E st p b c pc =
     Ok (mkResolution true (Some (JStr c)) (Some md) Exact None)) /\
  (pointers_wf E st p b -> find_best_context E st p b c pc = Ok (resolve_tiers E st p b c pc)).
Proof.
  split.
  - intros md Hmd. unfold find_best_context. rewrite Hmd. reflexivity.
  - intros [Hl Hf]. unfold find_best_context, resolve_tiers.
    destruct (hit (_get_metadata E st p b c)) as [md|]; [reflexivity|].
    assert (Hfork :
      match hit (_get_base_branch_info E st p b) with
      | None => Ok not_found
      | Some info =>
          match py_getitem info "base_branch", py_getitem info "base_commit" with
          | Err e, _ => Err e
          | Ok _, Err e => Err e
          | Ok base_branch, Ok base_commit =>
              match py_slice_ok base_commit with
              | Err e => Err e
              | Ok _ =>
                  match base_branch with
                  | JStr bb =>
                      match hit (_get_metadata E st p bb (py_str E base_commit)) with
                      | Some md => Ok (mkResolution true (Some base_commit) (Some md)
                                                    CrossBranch (Some base_branch))
                      | None => Ok not_found
                      end
                  | _ => Err AttributeError
                  end
              end
          end
      end =
      Ok match hit (_get_base_branch_info E st p b) with
         | Some j => match fork_of j with
                     | Some (bb, bc) =>
                         match hit (_get_metadata E st p bb bc) with
                         | Some md => mkResolution true (Some (JStr bc)) (Some md)
                                                   CrossBranch (Some (JStr bb))
                         | None => not_found
                         end
                     | None => not_found
                     end
         | None => not_found
         end).
    { destruct (hit (_get_base_branch_info E st p b)) as [j|]; [|reflexivity].
      destruct j as [| | | |l|l]; simpl in Hf; try congruence.
      unfold py_getitem; simpl.
      destruct (assoc "base_branch" l) as [[]|]; try congruence;
      destruct (assoc "base_commit" l) as [[]|]; try congruence.
      simpl. match goal with |- context [hit ?x] => destruct (hit x) end; reflexivity. }
    assert (Hlatest :
      forall k : res resolution,
      match hit (_get_branch_latest E st p b) with
      | None => k
      | Some info =>
          match py_get_opt info "commit_sha" with
          | Err e => Err e
          | Ok cm =>
              if match cm with Some (JStr s) => negb (String.eqb s c) | _ => true end then
                match py_getitem info "commit_sha" with
                | Err e => Err e
                | Ok latest_commit =>
                    match hit (_get_metadata E st p b (py_str E latest_commit)) with
                    | Some md =>
                        match py_slice_ok latest_commit with
                        | Err e => Err e
                        | Ok _ => Ok (mkResolution true (Some latest_commit) (Some md)
                                                   Incremental None)
                        end
                    | None => k
                    end
                end
              else k
          end
      end =
      match hit (_get_branch_latest E st p b) with
      | Some j => match latest_commit_of j with
                  | Some s => if String.eqb s c then k
                              else match hit (_get_metadata E st p b s) with
                                   | Some md => Ok (mkResolution true (Some (JStr s)) (Some md)
                                                                 Incremental None)
                                   | None => k
                                   end
                  | None => k
                  end
      | None => k
      end).
    { intros k. destruct (hit (_get_branch_latest E st p b)) as [j|]; [|reflexivity].
      destruct j as [| | | |l|l]; simpl in Hl; try congruence.
      unfold py_get_opt, py_getitem, latest_commit_of.
      destruct (assoc "commit_sha" l) as [[]|]; try congruence.
      simpl. destruct (String.eqb s c); simpl; [reflexivity|].
      match goal with |- context [hit ?x] => destruct (hit x) end; reflexivity. }
    rewrite Hlatest, Hfork. clear Hlatest Hfork Hl Hf.
    destruct pc as [s|]; [unfold truthy|]; simpl;
    repeat first
      [ reflexivity
      | match goal with
        | |- context [hit ?x] => destruct (hit x)
        | |- context [latest_commit_of ?j] => destruct (latest_commit_of j)
        | |- context [fork_of ?j] => destruct (fork_of j) as [[? ?]|]
        | |- context [String.eqb ?a ?b] => destruct (String.eqb a b)
        end; simpl ].
Qed.

End Resolution.

Lemma malformed_metadata_reads_as_absent_witness :
  loads_bytes env_ok "{" = None /\
  _get_metadata env_ok (with_blob empty_store (_get_metadata_path "p" "main" "c1") (Raw "{"))
    "p" "main" "c1" = None /\
  find_best_context env_ok (with_blob empty_store (_get_metadata_path "p" "main" "c1") (Raw "{"))
    "p" "main" "c1" (Some "c0") =
  find_best_context env_ok (without_blob empty_store (_get_metadata_path "p" "main" "c1"))
    "p" "main" "c1" (Some "c0").
Proof.
  split; [reflexivity|]. split.
  - apply (proj1 (malformed_metadata_reads_as_absent env_ok empty_store _ "{" eq_refl)).
    reflexivity.
  - apply (proj2 (malformed_metadata_reads_as_absent env_ok empty_store _ "{" eq_refl)).
Defined.

Lemma find_best_context_tiers_witness :
  pointers_wf env_ok st_latest "p" "main" /\
  find_best_context env_ok st_latest "p" "main" "c2" None =
  Ok (resolve_tiers env_ok st_latest "p" "main" "c2" None).
Proof.
  assert (H : pointers_wf env_ok st_latest "p" "main")
    by (unfold pointers_wf; vm_compute; split; first [exact I | congruence]).
  split; [exact H|].
  apply (proj2 (find_best_context_tiers env_ok st_latest "p" "main" "c2" None)). exact H.
Defined.

(** C1, as stated, fails: the exact key holds a readable document, [{}],
    yet the resolver skips it (an empty dict is falsy) and answers from the
    parent commit with strategy incremental. *)
Lemma find_best_context_empty_exact_counterexample :
  read_json env_ok st_empty_exact (_get_metadata_path "p" "main" "c2") = Some (JObj []) /\
  match find_best_context env_ok st_empty_exact "p" "main" "c2" (Some "c1") with
  | Ok r => reuse_strategy r = Incremental /\ res_commit r = Some (JStr "c1")
  | Err _ => False
  end.
Proof. vm_compute. split; [reflexivity | split; reflexivity]. Qed.

(** ** Frames: what publish can do to the container

    A relation between stores that every content-object upload respects is
    respected by the file scan; one that the writes under [projects/] also
    respect is respected by a whole publish and by [record_branch_fork]. *)

Section ScanFrame.

Variable E : env.
Variable R : store -> store -> Prop.
Hypothesis R_refl : forall st, R st st.
Hypothesis R_trans : forall s1 s2 s3, R s1 s2 -> R s2 s3 -> R s1 s3.
Hypothesis R_content : forall s st,
  R st (snd (upload_blob E false (_get_content_object_path (_compute_file_hash E s)) (Raw s) st)).

Lemma respects_content_exists h : respects R (_content_exists h).
Proof. intros st. apply R_refl. Qed.

Lemma respects_upload_content s :
  respects R (_upload_content_object E s (_compute_file_hash E s)).
Proof.
  unfold _upload_content_object.
  apply respects_bind; [exact R_trans|apply respects_content_exists|intros ex].
  destruct ex; [intros st; apply R_refl|].
  apply respects_catch; [exact R_trans| |intros; intros st; apply R_refl].
  apply respects_bind; [exact R_trans| |intros; intros st; apply R_refl].
  intros st. apply R_content.
Qed.

Lemma respects_scan dname c parent pobjs files :
  forall cnt acc, respects R (scan_files E dname c parent pobjs files cnt acc).
Proof.
  induction files as [|[rp bytes] rest IH]; intros cnt acc; simpl.
  - intros st. apply R_refl.
  - apply respects_bind; [exact R_trans|intros st; apply R_refl|intros cls].
    apply respects_bind; [exact R_trans|apply respects_content_exists|intros ex].
    destruct ex; [apply IH|].
    apply respects_bind; [exact R_trans|apply respects_upload_content|intros ok].
    destruct ok; [apply IH|intros st; apply R_refl].
Qed.

End ScanFrame.

Section PublishFrame.

Variable E : env.
Variable R : store -> store -> Prop.
Hypothesis R_refl : forall st, R st st.
Hypothesis R_trans : forall s1 s2 s3, R s1 s2 -> R s2 s3 -> R s1 s3.
Hypothesis R_content : forall s st,
  R st (snd (upload_blob E false (_get_content_object_path (_compute_file_hash E s)) (Raw s) st)).
Hypothesis R_projects : forall ow name b st, under_projects name ->
  R st (snd (upload_blob E ow name b st)).

Local Ltac frame :=
  repeat match goal with
  | |- respects R (mret _) => intros ?st; apply R_refl
  | |- respects R (lift _) => intros ?st; apply R_refl
  | |- respects R mget => intros ?st; apply R_refl
  | |- respects R (mbind _ _) => apply respects_bind; [exact R_trans| |intros ?x]
  | |- respects R (mcatch _ _) => apply respects_catch; [exact R_trans| |intros ?x]
  | |- respects R (upload_blob E _ _ _) =>
      intros ?st; apply R_projects; auto with blobnames
  | |- respects R (scan_files E _ _ _ _ _ _ _) => apply respects_scan; assumption
  | |- respects R (if ?b then _ else _) => destruct b
  | |- respects R (match ?x with _ => _ end) => destruct x
  end.

Lemma respects_update_latest clk p b c md :
  respects R (_update_branch_latest E clk p b c md).
Proof. unfold _update_branch_latest. frame. Qed.


Lemma respects_publish_full clk d p b c parent :
  respects R (publish_full E clk d p b c parent).
Proof.
  unfold publish_full. frame. apply respects_update_latest.
Qed.

Lemma respects_try_reference clk p b c ref :
  respects R (try_reference E clk p b c ref).
Proof. unfold try_reference. frame. apply respects_update_latest. Qed.

Lemma respects_upload_context clk od p b c parent :
  respects R (upload_context_with_dedup E clk od p b c parent).
Proof.
  unfold upload_context_with_dedup. frame.
  all: first [apply respects_try_reference | apply respects_publish_full].
Qed.

End PublishFrame.

(** ** Single writes *)

Section Writes.

Variable E : env.



Lemma content_kept_refl st : content_kept st st.
Proof. intros h b H. exact H. Qed.

Lemma content_kept_trans s1 s2 s3 : content_kept s1 s2 -> content_kept s2 s3 -> content_kept s1 s3.
Proof. intros H1 H2 h b H. apply H2, H1, H. Qed.

Lemma upload_blob_content_kept ow name b st :
  (ow = false \/ under_projects name) -> content_kept st (snd (upload_blob E ow name b st)).
Proof.
  intros Hn h b0 Hh. unfold upload_blob; simpl.
  destruct (put_ok E name && _) eqn:Hp; simpl; [|exact Hh].
  rewrite lookup_insert_ne; [exact Hh|].
  intros Heq. destruct Hn as [->|Hu].
  - rewrite Heq, Hh in Hp. rewrite andb_false_r in Hp. discriminate.
  - exact (content_ne_projects h _ Hu (eq_sym Heq)).
Qed.






End Writes.

(** ** The file scan *)

Section Scan.

Variable E : env.

Lemma respects_scan_kept dname c parent pobjs files cnt acc :
  respects content_kept (scan_files E dname c parent pobjs files cnt acc).
Proof.
  apply respects_scan; [apply content_kept_refl | apply content_kept_trans |].
  intros s st. apply upload_blob_content_kept. left. reflexivity.
Qed.

Lemma upload_content_present s st :
  fst (_upload_content_object E s (_compute_file_hash E s) st) = Ok true ->
  blobs (snd (_upload_content_object E s (_compute_file_hash E s) st))
    !! _get_content_object_path (_compute_file_hash E s) <> None.
Proof.
  unfold _upload_content_object, _content_exists, mbind, mcatch, mret; simpl.
  destruct (blobs st !! _) eqn:Hb; simpl; [rewrite Hb; congruence|].
  unfold upload_blob. rewrite Hb. simpl.
  destruct (put_ok E _); simpl; [|discriminate].
  intros _. rewrite lookup_insert_eq. discriminate.
Qed.

Lemma classify_class c parent pobjs rel h src sc :
  classify c parent pobjs rel h = Ok (src, sc) ->
  src = file_class (dict_lookup_str rel pobjs) h.
Proof.
  unfold classify, file_class, json_eq_str.
  destruct (dict_lookup_str rel pobjs) as [ph|]; [|congruence].
  destruct ph; try congruence.
  destruct (String.eqb s h); [|congruence].
  destruct parent as [pm|]; [|discriminate].
  destruct (py_get pm "commit_sha" (JStr "unknown")); congruence.
Qed.

(** A scan that runs to its end lists one entry per file, in order, counts
    the files by class, and leaves the content object of every file stored. *)
Lemma scan_files_success dname c parent pobjs files :
  forall cnt acc st cnt' acc' st',
  scan_files E dname c parent pobjs files cnt acc st = (Ok (Some (cnt', acc')), st') ->
  exists objs, acc' = (acc ++ objs)%list /\
    Forall2 (fun f o => exists src sc,
               classify c parent pobjs (dname ++ "/" ++ fst f) (_compute_file_hash E (snd f))
                 = Ok (src, sc) /\
               o = content_object_entry (dname ++ "/" ++ fst f) (_compute_file_hash E (snd f))
                     (String.length (snd f)) src sc) files objs /\
    total_files cnt' = total_files cnt + length files /\
    inherited_files cnt' = inherited_files cnt + count_class Inherited (file_classes E dname pobjs files) /\
    updated_files cnt' = updated_files cnt + count_class Updated (file_classes E dname pobjs files) /\
    new_files cnt' = new_files cnt + count_class New (file_classes E dname pobjs files) /\
    (forall f, In f files ->
       blobs st' !! _get_content_object_path (_compute_file_hash E (snd f)) <> None).
Proof.
  induction files as [|[rp bytes] rest IH]; intros cnt acc st cnt' acc' st' Hrun.
  - simpl in Hrun. injection Hrun as <- <- <-. exists []. rewrite app_nil_r.
    repeat split; try lia; auto; intros f [].
  - simpl in Hrun. unfold mbind at 1, lift in Hrun.
    destruct (classify c parent pobjs _ _) as [[src sc]|e] eqn:Hc; [|discriminate].
    simpl in Hrun. unfold mbind at 1, _content_exists in Hrun.
    set (h := _compute_file_hash E bytes) in *.
    set (e0 := content_object_entry (dname ++ "/" ++ rp) h (String.length bytes) src sc) in *.
    assert (Hcls := classify_class _ _ _ _ _ _ _ Hc).
    assert (Hstep : exists cnt1 st1,
      scan_files E dname c parent pobjs rest cnt1 (acc ++ [e0])%list st1 = (Ok (Some (cnt', acc')), st') /\
      total_files cnt1 = S (total_files cnt) /\
      inherited_files cnt1 = inherited_files cnt + (if source_eqb Inherited src then 1 else 0) /\
      updated_files cnt1 = updated_files cnt + (if source_eqb Updated src then 1 else 0) /\
      new_files cnt1 = new_files cnt + (if source_eqb New src then 1 else 0) /\
      blobs st1 !! _get_content_object_path h <> None).
    { destruct (blobs st !! _get_content_object_path h) eqn:Hb; simpl in Hrun.
      - exists (count_file cnt src), st. split; [exact Hrun|].
        destruct src; simpl; repeat split; try lia; congruence.
      - unfold mbind in Hrun.
        destruct (_upload_content_object E bytes h st) as [[ok|e] st1] eqn:Hu; [|discriminate].
        destruct ok; [|discriminate].
        exists (count_upload (count_file cnt src)), st1. split; [exact Hrun|].
        assert (P := upload_content_present bytes st). fold h in P. rewrite Hu in P.
        specialize (P eq_refl). simpl in P.
        destruct src; simpl; repeat split; try lia; exact P. }
    destruct Hstep as [cnt1 [st1 [Hr [T [I [U [N P]]]]]]].
    destruct (IH _ _ _ _ _ _ Hr) as [objs [Ha [Hf [T' [I' [U' [N' Hp]]]]]]].
    exists (e0 :: objs). split; [rewrite Ha, <- app_assoc; reflexivity|].
    split; [constructor; [exists src, sc; split; [exact Hc|reflexivity]|exact Hf]|].
    unfold file_classes in *; simpl. unfold count_class in *; simpl. subst src.
    rewrite T', I', U', N', T, I, U, N.
    destruct (file_class _ _); simpl; repeat split; try lia.
    all: intros f [<-|Hin]; [|apply Hp, Hin].
    all: simpl; destruct (blobs st1 !! _get_content_object_path h) as [b|] eqn:Eb; [|congruence].
    all: assert (K := respects_scan_kept dname c parent pobjs rest cnt1 (acc ++ [e0])%list st1 h b Eb);
         rewrite Hr in K; simpl in K; unfold h in *; congruence.
Qed.

End Scan.

(** ** Runs of the publish paths *)

Section Runs.

Variable E : env.

Lemma update_latest_run clk p b c l st :
  assoc "analysis" l = None ->
  _update_branch_latest E clk p b c (JObj l) st =
  if put_ok E (latest_path p b)
  then (Ok true, stored st (latest_path p b) (Doc (latest_doc clk c)))
  else (Ok false, refused st (latest_path p b)).
Proof.
  intros Ha. unfold _update_branch_latest, mbind, lift, mcatch, mret, upload_blob; simpl.
  rewrite Ha. simpl. rewrite ?orb_true_l, ?andb_true_r.
  destruct (put_ok E (latest_path p b)); reflexivity.
Qed.

Lemma metadata_doc_no_analysis clk p b c cnt objs :
  exists l, metadata_doc clk p b c cnt objs = JObj l /\ assoc "analysis" l = None.
Proof. eexists. split; reflexivity. Qed.

Lemma reference_metadata_shape clk p b c cross ref :
  reference_metadata clk p b c cross = Ok ref ->
  exists l, ref = JObj l /\ assoc "analysis" l = None.
Proof.
  unfold reference_metadata.
  destruct (py_get cross "branch" _); [|discriminate].
  destruct (py_get cross "content_objects" _); [|discriminate].
  destruct (py_get cross "stats" _); [|discriminate].
  intros [= <-]. eexists. split; reflexivity.
Qed.

Lemma publish_full_run clk d p b c parent st :
  publish_full E clk d p b c parent st =
  match build_parent_objects parent with
  | Err e => (Err e, st)
  | Ok pobjs =>
      match scan_files E (dir_name d) c parent pobjs (dir_files d) zero_counts [] st with
      | (Err e, st1) => (Err e, st1)
      | (Ok None, st1) => (Ok false, st1)
      | (Ok (Some (cnt, objs)), st1) =>
          if put_ok E (_get_metadata_path p b c)
          then (Ok true, snd (_update_branch_latest E clk p b c (metadata_doc clk p b c cnt objs)
                                (stored st1 (_get_metadata_path p b c)
                                   (Doc (metadata_doc clk p b c cnt objs)))))
          else (Ok false, refused st1 (_get_metadata_path p b c))
      end
  end.
Proof.
  unfold publish_full, mbind at 1, lift.
  destruct (build_parent_objects parent) as [pobjs|e]; [|reflexivity].
  unfold mbind at 1.
  destruct (scan_files _ _ _ _ _ _ _ _ st) as [[[[cnt objs]|]|e] st1]; [|reflexivity|reflexivity].
  unfold mbind, mcatch, mret, upload_blob. rewrite ?orb_true_l, ?andb_true_r.
  destruct (put_ok E _); [|reflexivity].
  destruct (metadata_doc_no_analysis clk p b c cnt objs) as [l [Hl Ha]].
  rewrite Hl. unfold stored. rewrite (update_latest_run clk p b c l _ Ha).
  destruct (put_ok E (latest_path p b)); reflexivity.
Qed.

Lemma try_reference_run clk p b c l st :
  assoc "analysis" l = None ->
  try_reference E clk p b c (JObj l) st =
  if put_ok E (_get_metadata_path p b c)
  then (Ok true, snd (_update_branch_latest E clk p b c (JObj l)
                        (stored st (_get_metadata_path p b c) (Doc (JObj l)))))
  else (Ok false, refused st (_get_metadata_path p b c)).
Proof.
  intros Ha. unfold try_reference, mbind, mcatch, mret, upload_blob.
  rewrite ?orb_true_l, ?andb_true_r.
  destruct (put_ok E _); [|reflexivity].
  unfold stored. rewrite (update_latest_run clk p b c l _ Ha).
  destruct (put_ok E (latest_path p b)); reflexivity.
Qed.

Lemma upload_context_run clk od p b c parent st :
  upload_context_with_dedup E clk od p b c parent st =
  match od with
  | None => (Ok false, st)
  | Some d =>
      match hit (_get_metadata E st p b c) with
      | Some _ => (Ok true, st)
      | None =>
          match _find_commit_in_other_branches E st p b c with
          | None => publish_full E clk d p b c parent st
          | Some cross =>
              match reference_metadata clk p b c cross with
              | Err e => (Err e, st)
              | Ok ref =>
                  if put_ok E (_get_metadata_path p b c)
                  then (Ok true, snd (_update_branch_latest E clk p b c ref
                                        (stored st (_get_metadata_path p b c) (Doc ref))))
                  else publish_full E clk d p b c parent (refused st (_get_metadata_path p b c))
              end
          end
      end
  end.
Proof.
  unfold upload_context_with_dedup.
  destruct od as [d|]; [|reflexivity].
  unfold mbind at 1, mget.
  destruct (hit _); [reflexivity|].
  destruct (_find_commit_in_other_branches E st p b c) as [cross|]; [|reflexivity].
  unfold mbind at 1, lift.
  destruct (reference_metadata clk p b c cross) as [ref|e] eqn:Hr; [|reflexivity].
  destruct (reference_metadata_shape _ _ _ _ _ _ Hr) as [l [-> Ha]].
  unfold mbind. rewrite (try_reference_run clk p b c l st Ha).
  destruct (put_ok E _); reflexivity.
Qed.

End Runs.

Section ScanRuns.

Variable E : env.

Lemma upload_content_run s st :
  _upload_content_object E s (_compute_file_hash E s) st =
  match blobs st !! _get_content_object_path (_compute_file_hash E s) with
  | Some _ => (Ok true, st)
  | None => if put_ok E (_get_content_object_path (_compute_file_hash E s))
            then (Ok true, stored st (_get_content_object_path (_compute_file_hash E s)) (Raw s))
            else (Ok false, refused st (_get_content_object_path (_compute_file_hash E s)))
  end.
Proof.
  unfold _upload_content_object, _content_exists, mbind, mcatch, mret, upload_blob; simpl.
  destruct (blobs st !! _) eqn:Hb; [reflexivity|].
  rewrite Hb. simpl. rewrite ?andb_true_r.
  destruct (put_ok E _); reflexivity.
Qed.

Lemma scan_files_cons dname c parent pobjs rp bytes rest cnt acc st :
  scan_files E dname c parent pobjs ((rp, bytes) :: rest) cnt acc st =
  let rel_path := (dname ++ "/" ++ rp)%string in
  let h := _compute_file_hash E bytes in
  match classify c parent pobjs rel_path h with
  | Err e => (Err e, st)
  | Ok cls =>
      let acc1 := (acc ++ [content_object_entry rel_path h (String.length bytes)
                             (fst cls) (snd cls)])%list in
      match blobs st !! _get_content_object_path h with
      | Some _ => scan_files E dname c parent pobjs rest (count_file cnt (fst cls)) acc1 st
      | None =>
          if put_ok E (_get_content_object_path h)
          then scan_files E dname c parent pobjs rest (count_upload (count_file cnt (fst cls))) acc1
                 (stored st (_get_content_object_path h) (Raw bytes))
          else (Ok None, refused st (_get_content_object_path h))
      end
  end.
Proof.
  simpl. unfold mbind at 1, lift.
  destruct (classify _ _ _ _ _) as [cls|e]; [|reflexivity].
  unfold mbind at 1, _content_exists.
  destruct (blobs st !! _) eqn:Hb; [reflexivity|].
  unfold mbind at 1. rewrite upload_content_run, Hb.
  destruct (put_ok E _); reflexivity.
Qed.

Lemma stored_projects_kept st h s :
  projects_kept st (stored st (_get_content_object_path h) (Raw s)).
Proof.
  intros name Hu. unfold stored; simpl.
  apply lookup_insert_ne. apply content_ne_projects, Hu.
Qed.

(** A scan writes content objects only; if one of its uploads is refused it
    stops with [None]. *)
Lemma scan_files_log dname c parent pobjs files :
  forall cnt acc st,
  exists log,
    uploads (snd (scan_files E dname c parent pobjs files cnt acc st)) = (log ++ uploads st)%list /\
    Forall (fun e => exists h, fst e = _get_content_object_path h) log /\
    projects_kept st (snd (scan_files E dname c parent pobjs files cnt acc st)) /\
    ((exists h, In (_get_content_object_path h, false) log) ->
     fst (scan_files E dname c parent pobjs files cnt acc st) = Ok None).
Proof.
  induction files as [|[rp bytes] rest IH]; intros cnt acc st.
  - exists []. simpl. repeat split; auto. intros [h []].
  - rewrite scan_files_cons. cbv zeta.
    destruct (classify _ _ _ _ _) as [cls|e].
    2: { exists []. simpl. repeat split; auto. intros [h []]. }
    destruct (blobs st !! _) eqn:Hb; [apply IH|].
    destruct (put_ok E _).
    + set (st1 := stored st _ (Raw bytes)).
      destruct (IH (count_upload (count_file cnt (fst cls)))
                   (acc ++ [content_object_entry (dname ++ "/" ++ rp) (_compute_file_hash E bytes)
                              (String.length bytes) (fst cls) (snd cls)])%list st1)
        as [log [U [F [P X]]]].
      exists (log ++ [(_get_content_object_path (_compute_file_hash E bytes), true)])%list.
      split; [rewrite U, <- app_assoc; reflexivity|].
      split; [apply Forall_app; split; [exact F|repeat constructor; eexists; reflexivity]|].
      split.
      * intros name Hu. rewrite (P name Hu). apply stored_projects_kept, Hu.
      * intros [h Hin]. apply X. exists h.
        apply in_app_or in Hin. destruct Hin as [Hin|[Heq|[]]]; [exact Hin|discriminate].
    + exists [(_get_content_object_path (_compute_file_hash E bytes), false)].
      split; [reflexivity|]. split; [repeat constructor; eexists; reflexivity|].
      split; [intros name Hu; reflexivity|]. intros _. reflexivity.
Qed.

End ScanRuns.

Section Publish.

Variable E : env.

Lemma metadata_doc_shape clk p b c cnt objs :
  exists l, metadata_doc clk p b c cnt objs = JObj l /\ assoc "analysis" l = None /\
            truthy (JObj l) = true.
Proof. eexists. repeat split; reflexivity. Qed.

Lemma reference_doc_shape clk p b c cross ref :
  reference_metadata clk p b c cross = Ok ref ->
  exists l, ref = JObj l /\ assoc "analysis" l = None /\ truthy (JObj l) = true.
Proof.
  unfold reference_metadata.
  destruct (py_get cross "branch" _); [|discriminate].
  destruct (py_get cross "content_objects" _); [|discriminate].
  destruct (py_get cross "stats" _); [|discriminate].
  intros [= <-]. eexists. repeat split; reflexivity.
Qed.

Lemma update_latest_blobs clk p b c l st name :
  assoc "analysis" l = None -> name <> latest_path p b ->
  blobs (snd (_update_branch_latest E clk p b c (JObj l) st)) !! name = blobs st !! name.
Proof.
  intros Ha Hn. rewrite (update_latest_run E clk p b c l st Ha).
  destruct (put_ok E _); simpl; [|reflexivity].
  apply lookup_insert_ne. congruence.
Qed.

Lemma update_latest_uploads clk p b c l st :
  assoc "analysis" l = None ->
  uploads (snd (_update_branch_latest E clk p b c (JObj l) st)) =
  (latest_path p b, put_ok E (latest_path p b)) :: uploads st.
Proof.
  intros Ha. rewrite (update_latest_run E clk p b c l st Ha).
  destruct (put_ok E _); reflexivity.
Qed.

(** A full publish that returns [true] went through the scan and wrote the
    metadata document. *)
Lemma publish_full_true clk d p b c parent st :
  fst (publish_full E clk d p b c parent st) = Ok true ->
  exists pobjs cnt objs st1,
    build_parent_objects parent = Ok pobjs /\
    scan_files E (dir_name d) c parent pobjs (dir_files d) zero_counts [] st
      = (Ok (Some (cnt, objs)), st1) /\
    put_ok E (_get_metadata_path p b c) = true /\
    snd (publish_full E clk d p b c parent st) =
    snd (_update_branch_latest E clk p b c (metadata_doc clk p b c cnt objs)
           (stored st1 (_get_metadata_path p b c) (Doc (metadata_doc clk p b c cnt objs)))).
Proof.
  rewrite publish_full_run.
  destruct (build_parent_objects parent) as [pobjs|e]; [|discriminate].
  destruct (scan_files _ _ _ _ _ _ _ _ st) as [[[[cnt objs]|]|e] st1] eqn:Hs;
    try discriminate.
  destruct (put_ok E _) eqn:Hp; [|discriminate].
  intros _. exists pobjs, cnt, objs, st1. repeat split; auto.
Qed.

Lemma publish_full_true_doc clk d p b c parent st :
  fst (publish_full E clk d p b c parent st) = Ok true ->
  exists pobjs cnt objs st1,
    build_parent_objects parent = Ok pobjs /\
    scan_files E (dir_name d) c parent pobjs (dir_files d) zero_counts [] st
      = (Ok (Some (cnt, objs)), st1) /\
    blobs (snd (publish_full E clk d p b c parent st)) !! _get_metadata_path p b c
      = Some (Doc (metadata_doc clk p b c cnt objs)).
Proof.
  intros H. destruct (publish_full_true _ _ _ _ _ _ _ H) as [pobjs [cnt [objs [st1 [Hb [Hs [Hp ->]]]]]]].
  exists pobjs, cnt, objs, st1. repeat split; auto.
  destruct (metadata_doc_shape clk p b c cnt objs) as [l [Hl [Ha _]]]. rewrite Hl.
  rewrite update_latest_blobs; [|exact Ha|apply metadata_ne_latest].
  unfold stored; simpl. apply lookup_insert_eq.
Qed.

(** A publish that returns [true] leaves a non-empty metadata document
    readable at its key. *)
Lemma publish_true_visible clk od p b c parent st :
  fst (upload_context_with_dedup E clk od p b c parent st) = Ok true ->
  exists md, hit (_get_metadata E (snd (upload_context_with_dedup E clk od p b c parent st)) p b c)
             = Some md.
Proof.
  rewrite upload_context_run.
  destruct od as [d|]; [|discriminate].
  destruct (hit (_get_metadata E st p b c)) as [md|] eqn:Hh; [intros _; exists md; exact Hh|].
  assert (Hfull : forall st0, fst (publish_full E clk d p b c parent st0) = Ok true ->
            exists md, hit (_get_metadata E (snd (publish_full E clk d p b c parent st0)) p b c)
                       = Some md).
  { intros st0 H. destruct (publish_full_true_doc _ _ _ _ _ _ _ H)
      as [pobjs [cnt [objs [st1 [_ [_ Hd]]]]]].
    destruct (metadata_doc_shape clk p b c cnt objs) as [l [Hl [_ Ht]]].
    rewrite Hl in Hd. exists (JObj l).
    unfold _get_metadata, read_json. rewrite Hd. unfold parse_blob, hit. rewrite Ht. reflexivity. }
  destruct (_find_commit_in_other_branches E st p b c) as [cross|]; [|apply Hfull].
  destruct (reference_metadata clk p b c cross) as [ref|e] eqn:Hr; [|discriminate].
  destruct (put_ok E _); [|apply Hfull].
  intros _. destruct (reference_doc_shape _ _ _ _ _ _ Hr) as [l [-> [Ha Ht]]].
  exists (JObj l). unfold _get_metadata, read_json; simpl.
  rewrite update_latest_blobs; [|exact Ha|apply metadata_ne_latest].
  unfold stored; simpl. rewrite lookup_insert_eq. unfold parse_blob, hit. rewrite Ht. reflexivity.
Qed.

End Publish.

Section PublishLog.

Variable E : env.

Lemma content_log_not_projects (log : list (string * bool)) (name : string) (ok : bool) :
  Forall (fun e => exists h, fst e = _get_content_object_path h) log ->
  under_projects name -> ~ In (name, ok) log.
Proof.
  intros F Hu Hin. rewrite List.Forall_forall in F.
  destruct (F _ Hin) as [h Hh]. simpl in Hh.
  exact (content_ne_projects h name Hu (eq_sym Hh)).
Qed.

Lemma publish_full_meta_log clk d p b c parent st :
  exists log,
    uploads (snd (publish_full E clk d p b c parent st)) = (log ++ uploads st)%list /\
    (In (_get_metadata_path p b c, true) log -> fst (publish_full E clk d p b c parent st) = Ok true).
Proof.
  rewrite publish_full_run.
  destruct (build_parent_objects parent) as [pobjs|e]; [|exists []; split; [reflexivity|intros []]].
  destruct (scan_files_log E (dir_name d) c parent pobjs (dir_files d) zero_counts [] st)
    as [log [U [F _]]].
  assert (Nm := content_log_not_projects log (_get_metadata_path p b c) true F
                  (metadata_under_projects p b c)).
  destruct (scan_files _ _ _ _ _ _ _ _ st) as [[[[cnt objs]|]|e] st1]; simpl in U.
  - destruct (put_ok E _).
    + destruct (metadata_doc_shape clk p b c cnt objs) as [l [Hl [Ha _]]].
      rewrite Hl. cbn [fst snd]. rewrite (update_latest_uploads E clk p b c l _ Ha).
      exists ((latest_path p b, put_ok E (latest_path p b)) :: (_get_metadata_path p b c, true) :: log).
      split; [simpl; rewrite U; reflexivity|]. intros _. reflexivity.
    + exists ((_get_metadata_path p b c, false) :: log). split; [simpl; rewrite U; reflexivity|].
      intros [H|H]; [discriminate|contradiction].
  - exists log. split; [exact U|]. intros H; contradiction.
  - exists log. split; [exact U|]. intros H; contradiction.
Qed.

Lemma publish_meta_log clk od p b c parent st :
  exists log,
    uploads (snd (upload_context_with_dedup E clk od p b c parent st)) = (log ++ uploads st)%list /\
    (In (_get_metadata_path p b c, true) log ->
     fst (upload_context_with_dedup E clk od p b c parent st) = Ok true).
Proof.
  rewrite upload_context_run.
  destruct od as [d|]; [|exists []; split; [reflexivity|intros []]].
  destruct (hit _); [exists []; split; [reflexivity|intros []]|].
  destruct (_find_commit_in_other_branches E st p b c) as [cross|]; [|apply publish_full_meta_log].
  destruct (reference_metadata clk p b c cross) as [ref|e] eqn:Hr;
    [|exists []; split; [reflexivity|intros []]].
  destruct (put_ok E _).
  - destruct (reference_doc_shape _ _ _ _ _ _ Hr) as [l [-> [Ha _]]].
    cbn [fst snd]. rewrite (update_latest_uploads E clk p b c l _ Ha).
    exists [(latest_path p b, put_ok E (latest_path p b)); (_get_metadata_path p b c, true)].
    split; [reflexivity|]. intros _. reflexivity.
  - destruct (publish_full_meta_log clk d p b c parent (refused st (_get_metadata_path p b c)))
      as [log [U H]].
    exists (log ++ [(_get_metadata_path p b c, false)])%list.
    split; [rewrite U, <- app_assoc; reflexivity|].
    intros Hin. apply in_app_or in Hin. destruct Hin as [Hin|[Heq|[]]]; [apply H, Hin|discriminate].
Qed.

End PublishLog.

(** ** The claims *)

(** C4 (amended): when the local directory exists and the metadata at
    (project, branch, commit) parses to a non-empty JSON value, publish
    returns success and leaves the container untouched (no hashing, no
    upload, no rewrite, nothing logged); in particular a publish that
    returned success, repeated with any directory that exists, returns
    success and changes nothing. *)
Theorem publish_short_circuit_idempotent (E : env) (clk : clock) (d : local_dir)
  (p b c : string) (parent : option json) (st : store) :
  (forall md, hit (_get_metadata E st p b c) = Some md ->
     upload_context_with_dedup E clk (Some d) p b c parent st = (Ok true, st)) /\
  (forall od clk' parent',
     fst (upload_context_with_dedup E clk' od p b c parent' st) = Ok true ->
     let st1 := snd (upload_context_with_dedup E clk' od p b c parent' st) in
     upload_context_with_dedup E clk (Some d) p b c parent st1 = (Ok true, st1)).
Proof.
  split.
  - intros md Hmd. rewrite upload_context_run, Hmd. reflexivity.
  - intros od clk' parent' Ht st1.
    destruct (publish_true_visible E clk' od p b c parent' st Ht) as [md Hmd].
    rewrite upload_context_run. fold st1 in Hmd. rewrite Hmd. reflexivity.
Qed.

(** C10: a publish whose metadata write succeeds returns success, whatever
    becomes of the branch-pointer update; success guarantees a non-empty
    metadata document readable at its key; and with a container that
    refuses the pointer write, publish of [dirA] returns success while
    [latest.json] is absent. *)
Theorem publish_success_ignores_latest :
  (forall E clk od p b c parent st,
     fst (upload_context_with_dedup E clk od p b c parent st) = Ok true ->
     exists md, hit (_get_metadata E (snd (upload_context_with_dedup E clk od p b c parent st)) p b c)
                = Some md) /\
  (forall E clk od p b c parent st,
     exists log,
       uploads (snd (upload_context_with_dedup E clk od p b c parent st)) = (log ++ uploads st)%list /\
       (In (_get_metadata_path p b c, true) log ->
        fst (upload_context_with_dedup E clk od p b c parent st) = Ok true)) /\
  (fst (upload_context_with_dedup env_nolatest clk0 (Some dirA) "p" "main" "c1" None empty_store)
     = Ok true /\
   blobs (snd (upload_context_with_dedup env_nolatest clk0 (Some dirA) "p" "main" "c1" None empty_store))
     !! latest_path "p" "main" = None).
Proof.
  split; [exact publish_true_visible|]. split; [exact publish_meta_log|].
  split; vm_compute; reflexivity.
Qed.

Section Failure.

Variable E : env.

Lemma projects_kept_refl st : projects_kept st st.
Proof. intros name _. reflexivity. Qed.

Lemma not_content_entry name ok h :
  under_projects name -> (name, ok) <> (_get_content_object_path h, false) .
Proof. intros Hu Heq. injection Heq as Heq _. exact (content_ne_projects h name Hu (eq_sym Heq)). Qed.

Lemma publish_full_failure clk d p b c parent st :
  exists log,
    uploads (snd (publish_full E clk d p b c parent st)) = (log ++ uploads st)%list /\
    ((exists h, In (_get_content_object_path h, false) log) ->
     fst (publish_full E clk d p b c parent st) = Ok false /\
     projects_kept st (snd (publish_full E clk d p b c parent st))).
Proof.
  rewrite publish_full_run.
  destruct (build_parent_objects parent) as [pobjs|e];
    [|exists []; split; [reflexivity|intros [h []]]].
  destruct (scan_files_log E (dir_name d) c parent pobjs (dir_files d) zero_counts [] st)
    as [log [U [F [P X]]]].
  destruct (scan_files _ _ _ _ _ _ _ _ st) as [[[[cnt objs]|]|e] st1]; simpl in U, P, X.
  - destruct (put_ok E _).
    + destruct (metadata_doc_shape clk p b c cnt objs) as [l [Hl [Ha _]]].
      rewrite Hl. cbn [fst snd]. rewrite (update_latest_uploads E clk p b c l _ Ha).
      exists ((latest_path p b, put_ok E (latest_path p b)) :: (_get_metadata_path p b c, true) :: log).
      split; [simpl; rewrite U; reflexivity|].
      intros [h [H|[H|H]]].
      * exfalso. exact (not_content_entry _ _ h (latest_under_projects p b) H).
      * exfalso. exact (not_content_entry _ _ h (metadata_under_projects p b c) H).
      * discriminate (X (ex_intro _ h H)).
    + exists ((_get_metadata_path p b c, false) :: log). split; [simpl; rewrite U; reflexivity|].
      intros [h [H|H]].
      * exfalso. exact (not_content_entry _ _ h (metadata_under_projects p b c) H).
      * discriminate (X (ex_intro _ h H)).
  - exists log. split; [exact U|]. intros _. split; [reflexivity|exact P].
  - exists log. split; [exact U|]. intros Hf. discriminate (X Hf).
Qed.

Lemma publish_failure clk od p b c parent st :
  exists log,
    uploads (snd (upload_context_with_dedup E clk od p b c parent st)) = (log ++ uploads st)%list /\
    ((exists h, In (_get_content_object_path h, false) log) ->
     fst (upload_context_with_dedup E clk od p b c parent st) = Ok false /\
     projects_kept st (snd (upload_context_with_dedup E clk od p b c parent st))).
Proof.
  rewrite upload_context_run.
  destruct od as [d|]; [|exists []; split; [reflexivity|intros [h []]]].
  destruct (hit _); [exists []; split; [reflexivity|intros [h []]]|].
  destruct (_find_commit_in_other_branches E st p b c) as [cross|]; [|apply publish_full_failure].
  destruct (reference_metadata clk p b c cross) as [ref|e] eqn:Hr;
    [|exists []; split; [reflexivity|intros [h []]]].
  destruct (put_ok E _).
  - destruct (reference_doc_shape _ _ _ _ _ _ Hr) as [l [-> [Ha _]]].
    cbn [fst snd]. rewrite (update_latest_uploads E clk p b c l _ Ha).
    exists [(latest_path p b, put_ok E (latest_path p b)); (_get_metadata_path p b c, true)].
    split; [reflexivity|].
    intros [h [H|[H|[]]]].
    + exfalso. exact (not_content_entry _ _ h (latest_under_projects p b) H).
    + exfalso. exact (not_content_entry _ _ h (metadata_under_projects p b c) H).
  - destruct (publish_full_failure clk d p b c parent (refused st (_get_metadata_path p b c)))
      as [log [U H]].
    exists (log ++ [(_get_metadata_path p b c, false)])%list.
    split; [rewrite U, <- app_assoc; reflexivity|].
    intros [h Hin]. apply in_app_or in Hin. destruct Hin as [Hin|[Heq|[]]].
    + destruct (H (ex_intro _ h Hin)) as [Hr' Hk]. split; [exact Hr'|].
      intros name Hu. rewrite (Hk name Hu). reflexivity.
    + exfalso. exact (not_content_entry _ _ h (metadata_under_projects p b c) Heq).
Qed.

End Failure.

Section Refs.

Variable E : env.

Lemma refs_ok_mono st st' :
  projects_kept st st' -> content_kept st st' -> refs_ok E st -> refs_ok E st'.
Proof.
  intros P K R name md h Hu Hr Hin.
  unfold read_json in Hr. rewrite (P name Hu) in Hr.
  specialize (R name md h Hu Hr Hin).
  destruct (blobs st !! _get_content_object_path h) as [b|] eqn:Hb; [|congruence].
  rewrite (K h b Hb). discriminate.
Qed.

Lemma refs_ok_refused st name : refs_ok E st -> refs_ok E (refused st name).
Proof. intros R. exact R. Qed.

Lemma refs_ok_stored st name j :
  refs_ok E st -> under_projects name ->
  (forall h, In h (referenced_hashes E j) -> blobs st !! _get_content_object_path h <> None) ->
  refs_ok E (stored st name (Doc j)).
Proof.
  intros R Hn Hj name' md h Hu Hr Hin. unfold stored; simpl.
  rewrite lookup_insert_ne by (intros Heq; exact (content_ne_projects h name Hn (eq_sym Heq))).
  unfold read_json in Hr; simpl in Hr.
  destruct (decide (name' = name)) as [->|Hne].
  - rewrite lookup_insert_eq in Hr. injection Hr as <-. apply Hj, Hin.
  - rewrite lookup_insert_ne in Hr by congruence. apply (R name' md h Hu Hr Hin).
Qed.

Lemma refs_ok_update_latest clk p b c l st :
  assoc "analysis" l = None -> refs_ok E st ->
  refs_ok E (snd (_update_branch_latest E clk p b c (JObj l) st)).
Proof.
  intros Ha R. rewrite (update_latest_run E clk p b c l st Ha).
  destruct (put_ok E _); simpl; [|exact R].
  apply refs_ok_stored; [exact R|apply latest_under_projects|intros h []].
Qed.

Lemma refs_ok_scan dname c parent pobjs files cnt acc st :
  refs_ok E st -> refs_ok E (snd (scan_files E dname c parent pobjs files cnt acc st)).
Proof.
  apply refs_ok_mono.
  - destruct (scan_files_log E dname c parent pobjs files cnt acc st) as [log [_ [_ [P _]]]].
    exact P.
  - apply respects_scan_kept.
Qed.

Lemma entries_hashes dname c parent pobjs files objs :
  Forall2 (fun f o => exists src sc,
             classify c parent pobjs (dname ++ "/" ++ fst f) (_compute_file_hash E (snd f))
               = Ok (src, sc) /\
             o = content_object_entry (dname ++ "/" ++ fst f) (_compute_file_hash E (snd f))
                   (String.length (snd f)) src sc) files objs ->
  flat_map (entry_hash E) objs = map (fun f => _compute_file_hash E (snd f)) files.
Proof.
  induction 1 as [|f o fs os [src [sc [_ ->]]] _ IH]; [reflexivity|].
  simpl. rewrite IH. reflexivity.
Qed.

Lemma referenced_metadata_doc clk p b c cnt objs :
  referenced_hashes E (metadata_doc clk p b c cnt objs) = flat_map (entry_hash E) objs.
Proof. reflexivity. Qed.

Lemma publish_full_refs clk d p b c parent st :
  refs_ok E st -> refs_ok E (snd (publish_full E clk d p b c parent st)).
Proof.
  intros R. rewrite publish_full_run.
  destruct (build_parent_objects parent) as [pobjs|e]; [|exact R].
  assert (R1 := refs_ok_scan (dir_name d) c parent pobjs (dir_files d) zero_counts [] st R).
  destruct (scan_files _ _ _ _ _ _ _ _ st) as [[[[cnt objs]|]|e] st1] eqn:Hs; simpl in R1;
    [|exact R1|exact R1].
  destruct (scan_files_success E _ _ _ _ _ _ _ _ _ _ _ Hs) as [objs' [Ho [Hf [_ [_ [_ [_ Hp]]]]]]].
  simpl in Ho. subst objs'.
  destruct (put_ok E _); [|exact R1].
  destruct (metadata_doc_shape clk p b c cnt objs) as [l [Hl [Ha _]]].
  cbn [snd]. rewrite Hl. apply refs_ok_update_latest; [exact Ha|].
  rewrite <- Hl. apply refs_ok_stored; [exact R1|apply metadata_under_projects|].
  intros h Hin. rewrite referenced_metadata_doc, (entries_hashes _ _ _ _ _ _ Hf) in Hin.
  apply in_map_iff in Hin. destruct Hin as [f [<- Hin]]. apply Hp, Hin.
Qed.

Lemma first_metadata_read st p c brs md :
  first_metadata E st p c brs = Some md ->
  exists br, read_json E st (_get_metadata_path p br c) = Some md.
Proof.
  induction brs as [|br rest IH]; simpl; [discriminate|].
  unfold hit, _get_metadata.
  destruct (read_json E st (_get_metadata_path p br c)) as [j|] eqn:Hj; [|apply IH].
  destruct (truthy j); [intros [= <-]; exists br; exact Hj|apply IH].
Qed.

Lemma other_branches_read st p b c md :
  _find_commit_in_other_branches E st p b c = Some md ->
  exists name, under_projects name /\ read_json E st name = Some md.
Proof.
  unfold _find_commit_in_other_branches.
  destruct (first_metadata E st p c _) as [m|] eqn:H1.
  - intros [= <-]. destruct (first_metadata_read _ _ _ _ _ H1) as [br Hr].
    exists (_get_metadata_path p br c). split; [apply metadata_under_projects|exact Hr].
  - destruct (read_json E st (base_branches_path p)) as [[| | | | |l]|]; try discriminate.
    intros H2. destruct (first_metadata_read _ _ _ _ _ H2) as [br Hr].
    exists (_get_metadata_path p br c). split; [apply metadata_under_projects|exact Hr].
Qed.

Lemma reference_refs clk p b c cross ref :
  reference_metadata clk p b c cross = Ok ref ->
  referenced_hashes E ref = referenced_hashes E cross.
Proof.
  unfold reference_metadata.
  destruct cross as [| | | | |l]; try discriminate. simpl.
  intros [= <-]. simpl.
  destruct (assoc "content_objects" l) as [[]|]; reflexivity.
Qed.

Lemma publish_refs clk od p b c parent st :
  refs_ok E st -> refs_ok E (snd (upload_context_with_dedup E clk od p b c parent st)).
Proof.
  intros R. rewrite upload_context_run.
  destruct od as [d|]; [|exact R].
  destruct (hit _); [exact R|].
  destruct (_find_commit_in_other_branches E st p b c) as [cross|] eqn:Hx;
    [|apply publish_full_refs, R].
  destruct (reference_metadata clk p b c cross) as [ref|e] eqn:Hr; [|exact R].
  destruct (put_ok E _); [|apply publish_full_refs, refs_ok_refused, R].
  destruct (reference_doc_shape _ _ _ _ _ _ Hr) as [l [Hl [Ha _]]].
  cbn [snd]. rewrite Hl. apply refs_ok_update_latest; [exact Ha|].
  rewrite <- Hl. apply refs_ok_stored; [exact R|apply metadata_under_projects|].
  intros h Hin. rewrite (reference_refs _ _ _ _ _ _ Hr) in Hin.
  destruct (other_branches_read _ _ _ _ _ Hx) as [name [Hu Hn]].
  exact (R name cross h Hu Hn Hin).
Qed.

End Refs.

(** C3: when a content-object upload of a publish is refused, publish
    returns failure and every blob under [projects/] (the metadata
    documents among them) is as before; and publish keeps the invariant
    that every content object a readable document under [projects/] lists
    is stored. *)
Theorem publish_content_failure_keeps_metadata (E : env) (clk : clock) (od : option local_dir)
  (p b c : string) (parent : option json) (st : store) :
  (exists log,
     uploads (snd (upload_context_with_dedup E clk od p b c parent st)) = (log ++ uploads st)%list /\
     ((exists h, In (_get_content_object_path h, false) log) ->
      fst (upload_context_with_dedup E clk od p b c parent st) = Ok false /\
      projects_kept st (snd (upload_context_with_dedup E clk od p b c parent st)))) /\
  (refs_ok E st -> refs_ok E (snd (upload_context_with_dedup E clk od p b c parent st))).
Proof. split; [apply publish_failure | apply publish_refs]. Qed.

(** C4, as stated, fails twice over: metadata that exists but is the
    empty document [{}] is rewritten by a second publish, and a publish
    whose local directory does not exist returns failure although the
    metadata exists. *)
Lemma publish_idempotent_counterexample :
  (read_json env_ok st_empty_exact (_get_metadata_path "p" "main" "c2") = Some (JObj []) /\
   blobs (snd (upload_context_with_dedup env_ok clk0 (Some dirA) "p" "main" "c2" None st_empty_exact))
     !! _get_metadata_path "p" "main" "c2" <> Some (Doc (JObj []))) /\
  (hit (_get_metadata env_ok st_latest "p" "main" "c1") = Some md_c1 /\
   fst (upload_context_with_dedup env_ok clk0 None "p" "main" "c1" None st_latest) = Ok false).
Proof.
  split; split; try (vm_compute; reflexivity).
  vm_compute. discriminate.
Qed.

Section Dedup.

Variable E : env.



End Dedup.







Section Cross.

Variable E : env.

Lemma first_metadata_in st p c brs md :
  first_metadata E st p c brs = Some md ->
  exists br, In br brs /\ hit (_get_metadata E st p br c) = Some md.
Proof.
  induction brs as [|br rest IH]; simpl; [discriminate|].
  destruct (hit (_get_metadata E st p br c)) as [m|] eqn:Hm.
  - intros [= <-]. exists br. split; [left; reflexivity|exact Hm].
  - intros H. destruct (IH H) as [br' [Hin Hh]]. exists br'. split; [right; exact Hin|exact Hh].
Qed.

(** Where the cross-branch search looks. *)
Lemma other_branches_scope st p b c md :
  _find_commit_in_other_branches E st p b c = Some md ->
  exists br, br <> b /\ hit (_get_metadata E st p br c) = Some md /\
    (In br common_branches \/
     exists l, read_json E st (base_branches_path p) = Some (JObj l) /\ In br (map fst l)).
Proof.
  unfold _find_commit_in_other_branches.
  destruct (first_metadata E st p c _) as [m|] eqn:H1.
  - intros [= <-]. destruct (first_metadata_in _ _ _ _ _ H1) as [br [Hin Hh]].
    apply filter_In in Hin. destruct Hin as [Hin Hne].
    exists br. split; [|split; [exact Hh|left; exact Hin]].
    intros ->. rewrite String.eqb_refl in Hne. discriminate.
  - destruct (read_json E st (base_branches_path p)) as [[| | | | |l]|] eqn:Hr; try discriminate.
    intros H2. destruct (first_metadata_in _ _ _ _ _ H2) as [br [Hin Hh]].
    apply filter_In in Hin. destruct Hin as [Hin Hne].
    exists br. split; [|split; [exact Hh|right; exists l; split; [reflexivity|exact Hin]]].
    intros ->. rewrite String.eqb_refl in Hne. discriminate.
Qed.

Lemma first_metadata_app st p c l1 l2 :
  first_metadata E st p c (l1 ++ l2) =
  match first_metadata E st p c l1 with Some md => Some md | None => first_metadata E st p c l2 end.
Proof.
  induction l1 as [|br l1 IH]; simpl; [reflexivity|].
  destruct (hit (_get_metadata E st p br c)); [reflexivity|exact IH].
Qed.

Lemma first_metadata_first st p c brs md :
  first_metadata E st p c brs = Some md ->
  exists pre br post, brs = (pre ++ br :: post)%list /\
    Forall (fun br' => hit (_get_metadata E st p br' c) = None) pre /\
    hit (_get_metadata E st p br c) = Some md.
Proof.
  induction brs as [|br brs IH]; simpl; [discriminate|].
  destruct (hit (_get_metadata E st p br c)) eqn:Hh.
  - intros [= <-]. exists [], br, brs. auto.
  - intros H. destruct (IH H) as [pre [br' [post [-> [F Hb]]]]].
    exists (br :: pre), br', post. split; [reflexivity|]. split; [constructor; auto|exact Hb].
Qed.

Lemma find_other_first st p b c :
  _find_commit_in_other_branches E st p b c = first_metadata E st p c (other_branch_order E st p b).
Proof.
  unfold _find_commit_in_other_branches, other_branch_order. rewrite first_metadata_app.
  destruct (first_metadata E st p c _); [reflexivity|].
  destruct (read_json E st (base_branches_path p)) as [[| | | | |l]|]; reflexivity.
Qed.

End Cross.

(** C7 (amended): the cross-branch search looks only at [main], [master],
    [develop], [dev] and then the branches named in
    [{project}/_base_branches.json], never the current branch, and takes the
    first non-empty metadata for the same commit in that order.  When the
    local directory exists, the branch has no non-empty metadata for the
    commit and the search finds a JSON object: if the metadata write goes
    through, publish returns success having written a document that carries
    that object's [content_objects] and [stats] (with [.get] defaults [[]]
    and [{}]), writes [latest.json] when that write goes through, uploads no
    content object, and does the same whatever the directory's files or the
    parent metadata; if the metadata write fails, publish falls through to
    the full publish, from the container as the failed write left it. *)
Theorem cross_branch_copy (E : env) (clk : clock) (d : local_dir) (p b c : string)
  (parent : option json) (st : store) (l : list (string * json))
  (Hown : hit (_get_metadata E st p b c) = None)
  (Hx : _find_commit_in_other_branches E st p b c = Some (JObj l)) :
  (exists br, br <> b /\ hit (_get_metadata E st p br c) = Some (JObj l) /\
     (In br common_branches \/
      exists l', read_json E st (base_branches_path p) = Some (JObj l') /\ In br (map fst l'))) /\
  (exists pre br post, other_branch_order E st p b = (pre ++ br :: post)%list /\
     Forall (fun br' => hit (_get_metadata E st p br' c) = None) pre /\
     hit (_get_metadata E st p br c) = Some (JObj l)) /\
  (put_ok E (_get_metadata_path p b c) = true ->
  fst (upload_context_with_dedup E clk (Some d) p b c parent st) = Ok true /\
  (exists md,
     reference_metadata clk p b c (JObj l) = Ok md /\
     blobs (snd (upload_context_with_dedup E clk (Some d) p b c parent st))
       !! _get_metadata_path p b c = Some (Doc md) /\
     md_field md "content_objects" = Some (match assoc "content_objects" l with
                                           | Some v => v | None => JArr [] end) /\
     md_field md "stats" = Some (match assoc "stats" l with Some v => v | None => JObj [] end)) /\
  (put_ok E (latest_path p b) = true ->
   blobs (snd (upload_context_with_dedup E clk (Some d) p b c parent st))
     !! latest_path p b = Some (Doc (latest_doc clk c))) /\
  (exists log, uploads (snd (upload_context_with_dedup E clk (Some d) p b c parent st))
                 = (log ++ uploads st)%list /\
               Forall (fun e => under_projects (fst e)) log) /\
  (forall d' parent',
     upload_context_with_dedup E clk (Some d') p b c parent' st =
     upload_context_with_dedup E clk (Some d) p b c parent st)) /\
  (put_ok E (_get_metadata_path p b c) = false ->
   upload_context_with_dedup E clk (Some d) p b c parent st =
   publish_full E clk d p b c parent (refused st (_get_metadata_path p b c))).
Proof.
  split; [apply other_branches_scope, Hx|].
  split.
  { rewrite find_other_first in Hx. exact (first_metadata_first E _ _ _ _ _ Hx). }
  split.
  2: { intros Hfail. rewrite upload_context_run, Hown, Hx. simpl. rewrite Hfail. reflexivity. }
  intros Hput.
  assert (Hrun : forall d' parent', upload_context_with_dedup E clk (Some d') p b c parent' st =
    (Ok true, snd (_update_branch_latest E clk p b c
                     (JObj [("commit_sha", JStr c); ("branch", JStr b); ("project_id", JStr p);
                            ("created_at", JStr (utc_now clk ++ "Z"));
                            ("content_objects", match assoc "content_objects" l with
                                                | Some v => v | None => JArr [] end);
                            ("stats", match assoc "stats" l with Some v => v | None => JObj [] end);
                            ("reference_from",
                               JObj [("branch", match assoc "branch" l with
                                                | Some v => v | None => JStr "unknown" end);
                                     ("commit_sha", JStr c)])])
                     (stored st (_get_metadata_path p b c)
                        (Doc (JObj [("commit_sha", JStr c); ("branch", JStr b); ("project_id", JStr p);
                            ("created_at", JStr (utc_now clk ++ "Z"));
                            ("content_objects", match assoc "content_objects" l with
                                                | Some v => v | None => JArr [] end);
                            ("stats", match assoc "stats" l with Some v => v | None => JObj [] end);
                            ("reference_from",
                               JObj [("branch", match assoc "branch" l with
                                                | Some v => v | None => JStr "unknown" end);
                                     ("commit_sha", JStr c)])])))))).
  { intros d' parent'. rewrite upload_context_run, Hown, Hx. simpl. rewrite Hput. reflexivity. }
  rewrite (Hrun d parent). cbn [fst snd].
  split; [reflexivity|].
  split.
  { eexists. split; [reflexivity|].
    rewrite update_latest_blobs; [|reflexivity|apply metadata_ne_latest].
    unfold stored; simpl. rewrite lookup_insert_eq. split; [reflexivity|].
    split; reflexivity. }
  split.
  { intros Hl. rewrite update_latest_run by reflexivity. rewrite Hl. simpl.
    apply lookup_insert_eq. }
  split.
  { rewrite update_latest_uploads by reflexivity. simpl.
    eexists [_; _]. split; [reflexivity|].
    repeat constructor; simpl; auto with blobnames. }
  intros d' parent'. apply Hrun.
Qed.

Lemma cross_branch_copy_witness :
  hit (_get_metadata env_ok st_main_nocos "p" "feature" "c1") = None /\
  fst (upload_context_with_dedup env_ok clk0 (Some dir_dup) "p" "feature" "c1" None st_main_nocos)
    = Ok true /\
  upload_context_with_dedup env_nometa clk0 (Some dir_dup) "p" "feature" "c1" None st_main_nocos =
  publish_full env_nometa clk0 dir_dup "p" "feature" "c1" None
    (refused st_main_nocos (_get_metadata_path "p" "feature" "c1")).
Proof.
  split; [vm_compute; reflexivity|].
  split.
  - refine (proj1 (proj1 (proj2 (proj2
              (cross_branch_copy env_ok clk0 dir_dup "p" "feature" "c1" None st_main_nocos
                 [("commit_sha", JStr "c1"); ("content_objects", JArr [])] _ _))) _));
      vm_compute; reflexivity.
  - refine (proj2 (proj2 (proj2
              (cross_branch_copy env_nometa clk0 dir_dup "p" "feature" "c1" None st_main_nocos
                 [("commit_sha", JStr "c1"); ("content_objects", JArr [])] _ _))) _);
      vm_compute; reflexivity.
Defined.

(** C7, as stated, fails: [feature] holds metadata for [c1], yet a publish
    of [c1] on [topic] does not find it (it is neither a conventional base
    branch nor listed in [_base_branches.json]) and uploads content. *)
Lemma cross_branch_copy_counterexample :
  hit (_get_metadata env_ok st_feature_only "p" "feature" "c1") <> None /\
  _find_commit_in_other_branches env_ok st_feature_only "p" "topic" "c1" = None /\
  writes_of (_compute_file_hash env_ok "x")
    (uploads (snd (upload_context_with_dedup env_ok clk0 (Some dirA) "p" "topic" "c1" None
                     st_feature_only))) = 1.
Proof. split; [vm_compute; discriminate|]. split; vm_compute; reflexivity. Qed.

(** C8 (amended): publishing an existing empty directory on the full path
    (no non-empty metadata for the commit on this branch or on the branches
    searched, a parent metadata whose [content_objects] can be read, a
    metadata write that goes through) returns success and writes a metadata
    document with an empty [content_objects] list, all four counts 0 and a
    deduplication ratio equal to 0. *)
Theorem empty_directory_publish (E : env) (clk : clock) (d : local_dir) (p b c : string)
  (parent : option json) (st : store) (pobjs : list (json * json))
  (Hempty : dir_files d = [])
  (Hown : hit (_get_metadata E st p b c) = None)
  (Hx : _find_commit_in_other_branches E st p b c = None)
  (Hp : build_parent_objects parent = Ok pobjs)
  (Hput : put_ok E (_get_metadata_path p b c) = true) :
  fst (upload_context_with_dedup E clk (Some d) p b c parent st) = Ok true /\
  exists md,
    blobs (snd (upload_context_with_dedup E clk (Some d) p b c parent st))
      !! _get_metadata_path p b c = Some (Doc md) /\
    md_field md "content_objects" = Some (JArr []) /\
    md_stat md "total_files" = Some (nat_json 0) /\
    md_stat md "inherited_files" = Some (nat_json 0) /\
    md_stat md "updated_files" = Some (nat_json 0) /\
    md_stat md "new_files" = Some (nat_json 0) /\
    exists q, md_stat md "deduplication_ratio" = Some (JNum q) /\ (q == 0)%Q.
Proof.
  rewrite upload_context_run, Hown, Hx, publish_full_run, Hp, Hempty. simpl.
  rewrite Hput. cbn [fst snd]. split; [reflexivity|].
  exists (metadata_doc clk p b c zero_counts []).
  split.
  { destruct (metadata_doc_shape clk p b c zero_counts []) as [l [Hl [Ha _]]].
    rewrite Hl, update_latest_blobs; [|exact Ha|apply metadata_ne_latest].
    unfold stored; simpl. apply lookup_insert_eq. }
  repeat split; try reflexivity.
  eexists. split; [reflexivity|]. reflexivity.
Qed.

Lemma empty_directory_publish_witness :
  fst (upload_context_with_dedup env_ok clk0 (Some dir_empty) "p" "main" "c1" None empty_store)
    = Ok true.
Proof.
  apply (empty_directory_publish env_ok clk0 dir_empty "p" "main" "c1" None empty_store []);
    vm_compute; reflexivity.
Defined.

(** C8, as stated, fails: an empty directory published on [feature] at a
    commit whose metadata on [main] lists a content object gets a copy of
    that list. *)
Lemma empty_directory_counterexample :
  fst (upload_context_with_dedup env_ok clk0 (Some dir_empty) "p" "feature" "c1" None st_main_cos)
    = Ok true /\
  match blobs (snd (upload_context_with_dedup env_ok clk0 (Some dir_empty) "p" "feature" "c1" None
                      st_main_cos)) !! _get_metadata_path "p" "feature" "c1" with
  | Some (Doc md) => md_field md "content_objects" <> Some (JArr [])
  | _ => False
  end.
Proof. split; [vm_compute; reflexivity|]. vm_compute. discriminate. Qed.

(** ** The stored ratio *)

Lemma f64_div_pos_core m :
  SpecFloat.SFdiv_core_binary 53 1024 (Zpos m) 0 (Zpos m) 0 = (2 ^ 53, -53, SpecFloat.loc_Exact)%Z.
Proof.
  unfold SpecFloat.SFdiv_core_binary. cbv zeta.
  replace (SpecFloat.Zdigits2 (Z.pos m) + 0 - (SpecFloat.Zdigits2 (Z.pos m) + 0))%Z with 0%Z by lia.
  change (Z.min (SpecFloat.fexp 53 1024 0) (0 - 0)) with (-53)%Z.
  change (0 - 0 - -53)%Z with 53%Z. cbv iota beta.
  rewrite Z.shiftl_mul_pow2 by lia.
  assert (Hd : Z.div_eucl (Zpos m * 2 ^ 53) (Zpos m) = (2 ^ 53, 0)%Z).
  { pose proof (Z.div_mul (2 ^ 53) (Zpos m) ltac:(lia)) as H1.
    pose proof (Z.mod_mul (2 ^ 53) (Zpos m) ltac:(lia)) as H2.
    rewrite Z.mul_comm in H1, H2.
    unfold Z.div, Z.modulo in H1, H2.
    destruct (Z.div_eucl (Zpos m * 2 ^ 53) (Zpos m)). simpl in H1, H2. subst. reflexivity. }
  rewrite Hd. unfold SpecFloat.new_location, SpecFloat.new_location_even, SpecFloat.new_location_odd.
  destruct (Z.even (Zpos m)); reflexivity.
Qed.

(** [m / m] is the float [1.0]. *)
Lemma f64_div_pos_self m : f64_div_pos m m = SpecFloat.S754_finite false (2 ^ 52) (-52).
Proof.
  unfold f64_div_pos. cbv beta iota delta [SpecFloat.SFdiv].
  rewrite f64_div_pos_core. vm_compute. reflexivity.
Qed.

Lemma ratio_none_inherited cnt : inherited_files cnt = 0 -> deduplication_ratio cnt = 0%Q.
Proof.
  intros H. unfold deduplication_ratio. rewrite H.
  destruct (Nat.ltb 0 (total_files cnt)); reflexivity.
Qed.

Lemma ratio_all_inherited cnt :
  0 < total_files cnt -> inherited_files cnt = total_files cnt -> (deduplication_ratio cnt == 1)%Q.
Proof.
  intros Hp H. unfold deduplication_ratio. rewrite H.
  destruct (total_files cnt) as [|k]; [lia|]. cbn [Nat.ltb Nat.leb int_truediv].
  rewrite f64_div_pos_self. vm_compute. reflexivity.
Qed.

(** C6 (amended): on the full path (no non-empty metadata for the commit
    on this branch or on the branches searched), a successful publish
    classifies each file by the rule (same hash as the parent's entry at the
    same path: inherited; no parent entry at that path: new; otherwise:
    updated), records each file's class as its [source], counts the classes
    in [stats], and stores as ratio the float [round(inherited/total, 4)]
    of those counts (0 when there are no files): exactly 0 when no file is
    inherited, exactly 1 when every file is.  In the spec's scenario the
    second publish reports one inherited, one updated, no new file and a
    ratio of 0.5, and the content object of [f1] is written once, by the
    first publish. *)
Theorem classification_and_scenario :
  (forall E clk d p b c parent st pobjs,
     hit (_get_metadata E st p b c) = None ->
     _find_commit_in_other_branches E st p b c = None ->
     build_parent_objects parent = Ok pobjs ->
     fst (upload_context_with_dedup E clk (Some d) p b c parent st) = Ok true ->
     exists cnt objs,
       blobs (snd (upload_context_with_dedup E clk (Some d) p b c parent st))
         !! _get_metadata_path p b c = Some (Doc (metadata_doc clk p b c cnt objs)) /\
       Forall2 (fun f o => md_field o "source" =
                  Some (JStr (source_name
                    (file_class (dict_lookup_str (dir_name d ++ "/" ++ fst f) pobjs)
                                (_compute_file_hash E (snd f))))))
               (dir_files d) objs /\
       total_files cnt = length (dir_files d) /\
       inherited_files cnt = count_class Inherited (file_classes E (dir_name d) pobjs (dir_files d)) /\
       updated_files cnt = count_class Updated (file_classes E (dir_name d) pobjs (dir_files d)) /\
       new_files cnt = count_class New (file_classes E (dir_name d) pobjs (dir_files d)) /\
       deduplication_ratio cnt =
         (if Nat.ltb 0 (length (dir_files d))
          then f64_value (float_round4
                 (int_truediv (count_class Inherited (file_classes E (dir_name d) pobjs (dir_files d)))
                              (length (dir_files d))))
          else 0%Q) /\
       (count_class Inherited (file_classes E (dir_name d) pobjs (dir_files d)) = 0 ->
        deduplication_ratio cnt = 0%Q) /\
       (0 < length (dir_files d) ->
        count_class Inherited (file_classes E (dir_name d) pobjs (dir_files d)) = length (dir_files d) ->
        (deduplication_ratio cnt == 1)%Q)) /\
  (exists md q,
     scenario_md2 = Some md /\
     md_stat md "inherited_files" = Some (nat_json 1) /\
     md_stat md "updated_files" = Some (nat_json 1) /\
     md_stat md "new_files" = Some (nat_json 0) /\
     md_stat md "deduplication_ratio" = Some (JNum q) /\ (q == 1 # 2)%Q /\
     writes_of (_compute_file_hash env_ok "x") (uploads scenario_c1) = 1 /\
     writes_of (_compute_file_hash env_ok "x") (uploads scenario_c2) = 1).
Proof.
  split.
  - intros E clk d p b c parent st pobjs Hown Hx Hp Ht.
    revert Ht. rewrite upload_context_run, Hown, Hx. intros Ht.
    destruct (publish_full_true_doc E _ _ _ _ _ _ _ Ht) as [pobjs' [cnt [objs [st1 [Hp' [Hs Hd]]]]]].
    rewrite Hp in Hp'. injection Hp' as <-.
    destruct (scan_files_success E _ _ _ _ _ _ _ _ _ _ _ Hs)
      as [objs' [Ho [Hf [T [I [U [N _]]]]]]].
    simpl in Ho. subst objs'.
    exists cnt, objs. split; [exact Hd|].
    split.
    { clear -Hf. induction Hf as [|f o fs os [src [sc [Hc ->]]] _ IH]; constructor; [|exact IH].
      rewrite <- (classify_class _ _ _ _ _ _ _ Hc). reflexivity. }
    simpl in T, I, U, N.
    split; [exact T|]. split; [exact I|]. split; [exact U|]. split; [exact N|].
    split; [unfold deduplication_ratio; rewrite T, I; reflexivity|].
    split; [intros H0; apply ratio_none_inherited; lia|].
    intros Hpos Hall. apply ratio_all_inherited; lia.
  - eexists _, _. split; [vm_compute; reflexivity|].
    repeat split; try (vm_compute; reflexivity).
Qed.

Lemma classification_and_scenario_witness :
  exists cnt objs,
    blobs scenario_c2 !! _get_metadata_path "p" "main" "C2"
      = Some (Doc (metadata_doc clk0 "p" "main" "C2" cnt objs)) /\
    total_files cnt = 2 /\ inherited_files cnt = 1.
Proof.
  destruct (proj1 classification_and_scenario env_ok clk0 dirB "p" "main" "C2" scenario_md1
              scenario_c1 (match build_parent_objects scenario_md1 with Ok l => l | Err _ => [] end))
    as [cnt [objs [Hd [_ [T [I _]]]]]].
  - vm_compute. reflexivity.
  - vm_compute. reflexivity.
  - vm_compute. reflexivity.
  - vm_compute. reflexivity.
  - exists cnt, objs. split; [exact Hd|]. rewrite T, I. split; vm_compute; reflexivity.
Defined.

(** C6, as stated, fails: the stored ratio is rounded to four places, so
    one inherited file out of three stores the float [0.3333] (the binary64
    number nearest to 3333/10000), not 1/3. *)
Lemma dedup_ratio_counterexample :
  exists md q,
    scenario_md3 = Some md /\
    md_stat md "inherited_files" = Some (nat_json 1) /\
    md_stat md "total_files" = Some (nat_json 3) /\
    md_stat md "deduplication_ratio" = Some (JNum q) /\
    q = f64_value (f64_div_pos 3333 10000) /\
    ~ (q == 1 # 3)%Q.
Proof.
  eexists _, _. split; [vm_compute; reflexivity|].
  split; [vm_compute; reflexivity|]. split; [vm_compute; reflexivity|].
  split; [vm_compute; reflexivity|]. split; [vm_compute; reflexivity|].
  vm_compute. discriminate.
Qed.

(** ** Download after publish *)

Section RoundTrip.

Variable E : env.
Hypothesis sha256_inj : forall s1 s2, sha256_hex E s1 = sha256_hex E s2 -> s1 = s2.

Lemma file_hash_inj s1 s2 : _compute_file_hash E s1 = _compute_file_hash E s2 -> s1 = s2.
Proof. intros H. apply sha256_inj. exact (sapp_cancel_l _ _ _ H). Qed.

Lemma content_ok_upload ow name bl st :
  content_ok E st -> (forall s, name = _get_content_object_path (_compute_file_hash E s) -> bl = Raw s) ->
  content_ok E (snd (upload_blob E ow name bl st)).
Proof.
  intros Hc Hn s b Hb. unfold upload_blob in Hb.
  destruct (put_ok E name && _); simpl in Hb; [|exact (Hc s b Hb)].
  destruct (decide (name = _get_content_object_path (_compute_file_hash E s))) as [->|Hne].
  - rewrite lookup_insert_eq in Hb. injection Hb as <-. apply Hn. reflexivity.
  - rewrite lookup_insert_ne in Hb by exact Hne. exact (Hc s b Hb).
Qed.

Lemma content_ok_publish clk od p b c parent :
  respects (fun st st' => content_ok E st -> content_ok E st')
           (upload_context_with_dedup E clk od p b c parent).
Proof.
  apply respects_upload_context.
  - intros st H. exact H.
  - intros s1 s2 s3 H1 H2 H. apply H2, H1, H.
  - intros s0 st Hc. apply content_ok_upload; [exact Hc|].
    intros s Hs. apply content_path_inj, file_hash_inj in Hs. subst s. reflexivity.
  - intros ow name bl st Hu Hc. apply content_ok_upload; [exact Hc|].
    intros s Hs. exfalso. exact (content_ne_projects _ name Hu (eq_sym Hs)).
Qed.

Lemma strip_copilot_dir rp : strip_copilot (".copilot" ++ "/" ++ rp) = rp.
Proof. destruct rp; reflexivity. Qed.

Lemma fold_inserts_list_to_map (l : list (string * string)) (m : gmap string string) :
  NoDup l.*1 ->
  fold_left (fun acc f => <[fst f := snd f]> acc) l m = (list_to_map l : gmap string string) ∪ m.
Proof.
  revert m. induction l as [|[k v] l IH]; intros m Hnd; cbn [fold_left].
  - symmetry. apply (left_id_L ∅ (∪)).
  - apply NoDup_cons in Hnd as [Hk Hnd]. rewrite IH by exact Hnd.
    rewrite list_to_map_cons, <- insert_union_l, insert_union_r; [reflexivity|].
    apply not_elem_of_list_to_map_1. exact Hk.
Qed.

Lemma entry_file_path fp h len src sc :
  py_getitem (content_object_entry fp h len src sc) "file_path" = Ok (JStr fp).
Proof. reflexivity. Qed.

Lemma entry_content_hash fp h len src sc :
  py_getitem (content_object_entry fp h len src sc) "content_hash" = Ok (JStr h).
Proof. reflexivity. Qed.

Lemma download_objects_run st (files : list (string * string)) objs :
  Forall2 (fun f o => exists len src sc,
             o = content_object_entry (".copilot" ++ "/" ++ fst f) (_compute_file_hash E (snd f))
                   len src sc) files objs ->
  (forall f, In f files ->
     blobs st !! _get_content_object_path (_compute_file_hash E (snd f)) = Some (Raw (snd f))) ->
  forall fs n, download_objects E st objs n fs =
               (Ok n, fold_left (fun acc f => <[fst f := snd f]> acc) files fs).
Proof.
  induction 1 as [|[rp bytes] o fs' os [len [src [sc ->]]] _ IH]; intros Hb fs n; [reflexivity|].
  cbn [download_objects]. unfold mbind, lift.
  rewrite entry_file_path, entry_content_hash. cbn [fst snd].
  rewrite (strip_copilot_dir rp). unfold _download_content_object. cbn [py_str].
  pose proof (Hb _ (or_introl eq_refl)) as Hb0. cbn [snd] in Hb0. rewrite Hb0. cbn [blob_bytes py_slice_ok].
  rewrite insert_insert_eq.
  apply IH. intros f Hin. apply Hb. right. exact Hin.
Qed.

Lemma publish_download_files clk d p b c parent st :
  content_ok E st -> dir_name d = ".copilot" -> NoDup (dir_files d).*1 ->
  hit (_get_metadata E st p b c) = None ->
  _find_commit_in_other_branches E st p b c = None ->
  fst (upload_context_with_dedup E clk (Some d) p b c parent st) = Ok true ->
  download_context E (snd (upload_context_with_dedup E clk (Some d) p b c parent st)) p b c ∅
    = (Ok true, list_to_map (dir_files d)).
Proof.
  intros Hc Hname Hnd Hown Hx Ht.
  assert (Hc' := content_ok_publish clk (Some d) p b c parent st Hc).
  revert Ht Hc'. rewrite upload_context_run, Hown, Hx. intros Ht Hc'.
  destruct (publish_full_true E _ _ _ _ _ _ _ Ht) as [pobjs [cnt [objs [st1 [_ [Hs [_ Hst]]]]]]].
  destruct (scan_files_success E _ _ _ _ _ _ _ _ _ _ _ Hs)
    as [objs' [Ho [Hf [_ [_ [_ [_ Hp]]]]]]].
  simpl in Ho. subst objs'.
  set (st' := snd (publish_full E clk d p b c parent st)) in *.
  destruct (metadata_doc_shape clk p b c cnt objs) as [l [Hl [Ha Htr]]].
  assert (Hkeep : forall name, name <> _get_metadata_path p b c -> name <> latest_path p b ->
                  blobs st' !! name = blobs st1 !! name).
  { intros name H1 H2. rewrite Hst, Hl, update_latest_blobs by assumption.
    unfold stored; simpl. apply lookup_insert_ne. congruence. }
  assert (Hmeta : blobs st' !! _get_metadata_path p b c = Some (Doc (JObj l))).
  { rewrite Hst, Hl, update_latest_blobs; [|exact Ha|apply metadata_ne_latest].
    unfold stored; simpl. apply lookup_insert_eq. }
  assert (Hfiles : forall f, In f (dir_files d) ->
     blobs st' !! _get_content_object_path (_compute_file_hash E (snd f)) = Some (Raw (snd f))).
  { intros f Hin. specialize (Hp f Hin).
    assert (Hk := Hkeep (_get_content_object_path (_compute_file_hash E (snd f)))
              (content_ne_projects _ _ (metadata_under_projects p b c))
              (content_ne_projects _ _ (latest_under_projects p b))).
    rewrite Hk. destruct (blobs st1 !! _) as [bl|] eqn:Hbl; [|congruence].
    rewrite (Hc' (snd f) bl); [reflexivity|exact Hk]. }
  unfold download_context, _get_metadata, read_json. rewrite Hmeta.
  cbn [parse_blob hit]. rewrite Htr.
  rewrite <- Hl. unfold mbind at 1, lift.
  change (py_contains (metadata_doc clk p b c cnt objs) "content_objects") with (@Ok bool true).
  cbn [negb]. unfold mbind at 1, lift.
  change (py_getitem (metadata_doc clk p b c cnt objs) "content_objects") with (@Ok json (JArr objs)).
  unfold mbind at 1, lift. cbn [py_iter]. unfold mbind.
  rewrite (download_objects_run st' (dir_files d) objs).
  - cbn. rewrite fold_inserts_list_to_map by exact Hnd. rewrite (right_id_L ∅ (∪)). reflexivity.
  - rewrite Hname in Hf. clear -Hf.
    induction Hf as [|f o fs os [src [sc [_ ->]]] _ IH]; constructor; [|exact IH].
    eexists _, _, _. reflexivity.
  - exact Hfiles.
Qed.

End RoundTrip.

(** C2 (amended): for a local directory named [.copilot] whose files have
    distinct relative paths, a publish that takes the full path (no
    non-empty metadata for the commit on this branch or on the searched
    branches) and returns success, over a container whose content keys
    hold the bytes of their digest (digests injective), is undone by
    [download_context] of the same (project, branch, commit) into an empty
    destination: the destination maps exactly D's relative paths to D's
    bytes. *)
Theorem publish_download_roundtrip (E : env) (clk : clock) (d : local_dir) (p b c : string)
    (parent : option json) (st : store) :
  (forall s1 s2, sha256_hex E s1 = sha256_hex E s2 -> s1 = s2) ->
  content_ok E st ->
  dir_name d = ".copilot" ->
  NoDup (dir_files d).*1 ->
  hit (_get_metadata E st p b c) = None ->
  _find_commit_in_other_branches E st p b c = None ->
  fst (upload_context_with_dedup E clk (Some d) p b c parent st) = Ok true ->
  download_context E (snd (upload_context_with_dedup E clk (Some d) p b c parent st)) p b c ∅
    = (Ok true, list_to_map (dir_files d)).
Proof.
  intros Hinj Hc Hname Hnd Hown Hx Ht.
  exact (publish_download_files E Hinj clk d p b c parent st Hc Hname Hnd Hown Hx Ht).
Qed.

Lemma publish_download_roundtrip_witness :
  download_context env_ok
    (snd (upload_context_with_dedup env_ok clk0 (Some dirA) "p" "main" "c1" None empty_store))
    "p" "main" "c1" ∅
  = (Ok true, list_to_map (dir_files dirA)).
Proof.
  apply (publish_download_roundtrip env_ok clk0 dirA "p" "main" "c1" None empty_store).
  - intros s1 s2 H. exact H.
  - intros s bl H. vm_compute in H. discriminate H.
  - reflexivity.
  - vm_compute. repeat constructor; set_solver.
  - vm_compute. reflexivity.
  - vm_compute. reflexivity.
  - vm_compute. reflexivity.
Defined.

(** C2, as stated, fails: a directory named [ctx] is published with
    success, and the download puts its file [f1] at [ctx/f1], not at [f1]. *)
Lemma publish_download_roundtrip_counterexample :
  fst (upload_context_with_dedup env_ok clk0 (Some dir_ctx) "p" "main" "c1" None empty_store)
    = Ok true /\
  fst (download_context env_ok
         (snd (upload_context_with_dedup env_ok clk0 (Some dir_ctx) "p" "main" "c1" None empty_store))
         "p" "main" "c1" ∅) = Ok true /\
  snd (download_context env_ok
         (snd (upload_context_with_dedup env_ok clk0 (Some dir_ctx) "p" "main" "c1" None empty_store))
         "p" "main" "c1" ∅) !! "f1" = None /\
  snd (download_context env_ok
         (snd (upload_context_with_dedup env_ok clk0 (Some dir_ctx) "p" "main" "c1" None empty_store))
         "p" "main" "c1" ∅) !! "ctx/f1" = Some "x".
Proof. vm_compute. repeat split; reflexivity. Qed.

(** ** More about blob names *)

Lemma sapp_nil_r (a : string) : (a ++ "")%string = a.
Proof. induction a as [|x a IH]; [reflexivity|]. rewrite sapp_cons. congruence. Qed.

Lemma srev_app (a b : string) : srev (a ++ b) = (srev b ++ srev a)%string.
Proof.
  induction a as [|x a IH]; simpl.
  - rewrite sapp_nil, sapp_nil_r. reflexivity.
  - rewrite ?sapp_cons; simpl. rewrite IH, sapp_assoc. reflexivity.
Qed.

Lemma srev_involutive (s : string) : srev (srev s) = s.
Proof.
  induction s as [|x s IH]; [reflexivity|]. simpl.
  rewrite srev_app, IH. reflexivity.
Qed.

Lemma sapp_cancel_r (a b c : string) : (a ++ c)%string = (b ++ c)%string -> a = b.
Proof.
  intros H. apply (f_equal srev) in H. rewrite !srev_app in H.
  apply sapp_cancel_l in H. rewrite <- (srev_involutive a), <- (srev_involutive b), H.
  reflexivity.
Qed.

Lemma slash_split a a' x y :
  no_slash a -> no_slash a' -> (a ++ "/" ++ x)%string = (a' ++ "/" ++ y)%string ->
  a = a' /\ x = y.
Proof.
  revert a'. induction a as [|c1 a IH]; intros [|c2 a'] Ha Ha' H.
  - rewrite !sapp_nil in H. injection H as H. auto.
  - rewrite sapp_nil, sapp_cons in H. injection H as Hc _. subst c2.
    exfalso. apply Ha'. left. reflexivity.
  - rewrite sapp_nil, sapp_cons in H. injection H as Hc _. subst c1.
    exfalso. apply Ha. left. reflexivity.
  - rewrite !sapp_cons in H. injection H as Hc H. subst c2.
    destruct (IH a') as [-> ->].
    + intros Hin. apply Ha. right. exact Hin.
    + intros Hin. apply Ha'. right. exact Hin.
    + exact H.
    + auto.
Qed.

Lemma sanitize_no_slash b : no_slash (sanitize_branch_name b).
Proof.
  induction b as [|c b IH]; simpl; intros Hin; [exact Hin|].
  destruct Hin as [Hc|Hin]; [|exact (IH Hin)].
  destruct (Ascii.eqb c "/"%char || Ascii.eqb c "092"%char)%bool eqn:Hb; [discriminate Hc|].
  subst c. discriminate Hb.
Qed.

Ltac suffix_ne :=
  let H := fresh in
  intros H; apply (f_equal srev) in H; rewrite ?srev_app in H;
  vm_compute in H; discriminate H.

Lemma metadata_ne_latest_any p b c p' b' : _get_metadata_path p b c <> latest_path p' b'.
Proof. unfold _get_metadata_path, latest_path. suffix_ne. Qed.

Lemma metadata_ne_parent_any p b c p' b' : _get_metadata_path p b c <> parent_branch_path p' b'.
Proof. unfold _get_metadata_path, parent_branch_path. suffix_ne. Qed.

Lemma latest_ne_parent_any p b p' b' : latest_path p b <> parent_branch_path p' b'.
Proof. unfold latest_path, parent_branch_path. suffix_ne. Qed.

Lemma metadata_path_split p b c :
  _get_metadata_path p b c =
  ("projects/" ++ p ++ "/branches/" ++ sanitize_branch_name b ++ "/" ++
   "commits/" ++ c ++ "/metadata.json")%string.
Proof.
  unfold _get_metadata_path, _get_commit_path, _get_branch_path. rewrite !sapp_assoc.
  reflexivity.
Qed.

Lemma latest_path_split p b :
  latest_path p b =
  ("projects/" ++ p ++ "/branches/" ++ sanitize_branch_name b ++ "/latest.json")%string.
Proof. unfold latest_path, _get_branch_path. rewrite !sapp_assoc. reflexivity. Qed.

Lemma latest_path_inj p b1 b2 :
  latest_path p b1 = latest_path p b2 -> sanitize_branch_name b1 = sanitize_branch_name b2.
Proof.
  rewrite !latest_path_split. intros H.
  do 3 apply sapp_cancel_l in H. exact (sapp_cancel_r _ _ _ H).
Qed.

Lemma content_ne_parent h p b : _get_content_object_path h <> parent_branch_path p b.
Proof. apply content_ne_projects, parent_branch_under_projects. Qed.

Lemma metadata_path_inj p b1 c1 b2 c2 :
  _get_metadata_path p b1 c1 = _get_metadata_path p b2 c2 ->
  sanitize_branch_name b1 = sanitize_branch_name b2 /\ c1 = c2.
Proof.
  rewrite !metadata_path_split. intros H.
  do 3 apply sapp_cancel_l in H.
  apply slash_split in H as [Hb H]; [|apply sanitize_no_slash|apply sanitize_no_slash].
  split; [exact Hb|]. apply sapp_cancel_l in H. exact (sapp_cancel_r _ _ _ H).
Qed.

(** ** Which blobs a publish writes *)

Lemma changed_within_refl W st : changed_within W st st.
Proof. intros name _. reflexivity. Qed.

Lemma changed_within_trans W s1 s2 s3 :
  changed_within W s1 s2 -> changed_within W s2 s3 -> changed_within W s1 s3.
Proof. intros H1 H2 name Hn. rewrite (H2 name Hn). exact (H1 name Hn). Qed.

Lemma upload_blob_changed E ow name bl st :
  changed_within (fun n => n = name) st (snd (upload_blob E ow name bl st)).
Proof.
  intros n Hn. unfold upload_blob.
  destruct (put_ok E name && _); simpl; [|reflexivity].
  apply lookup_insert_ne. congruence.
Qed.

Section PublishWrites.

Variable E : env.
Variables p b c : string.

Local Ltac writes :=
  repeat match goal with
  | |- respects _ (mret _) => intros ?st; apply changed_within_refl
  | |- respects _ (lift _) => intros ?st; apply changed_within_refl
  | |- respects _ mget => intros ?st; apply changed_within_refl
  | |- respects _ (mbind _ _) =>
      apply respects_bind; [apply changed_within_trans| |intros ?x]
  | |- respects _ (mcatch _ _) =>
      apply respects_catch; [apply changed_within_trans| |intros ?x]
  | |- respects _ (upload_blob E _ _ _) =>
      intros ?st; intros ?n ?Hn; apply upload_blob_changed; intros ->; apply Hn;
      unfold publish_names; eauto
  | |- respects _ (scan_files E _ _ _ _ _ _ _) =>
      apply respects_scan;
      [apply changed_within_refl|apply changed_within_trans|
       intros ?s ?st; intros ?n ?Hn; apply upload_blob_changed; intros ->; apply Hn;
       unfold publish_names; eauto]
  | |- respects _ (if ?x then _ else _) => destruct x
  | |- respects _ (match ?x with _ => _ end) => destruct x
  end.

Lemma writes_update_latest clk md :
  respects (changed_within (publish_names p b c)) (_update_branch_latest E clk p b c md).
Proof. unfold _update_branch_latest. writes. Qed.

Lemma writes_publish_full clk d parent :
  respects (changed_within (publish_names p b c)) (publish_full E clk d p b c parent).
Proof. unfold publish_full. writes. apply writes_update_latest. Qed.

Lemma writes_try_reference clk ref :
  respects (changed_within (publish_names p b c)) (try_reference E clk p b c ref).
Proof. unfold try_reference. writes. apply writes_update_latest. Qed.

Lemma writes_upload_context clk od parent :
  respects (changed_within (publish_names p b c)) (upload_context_with_dedup E clk od p b c parent).
Proof.
  unfold upload_context_with_dedup. writes.
  all: first [apply writes_try_reference | apply writes_publish_full].
Qed.

End PublishWrites.

(** ** [_calculate_similarity] *)

Lemma q_ratio_bounds (i u : nat) :
  i <= u -> 0 < u -> (0 <= inject_Z (Z.of_nat i) / inject_Z (Z.of_nat u) <= 1)%Q.
Proof.
  intros Hiu Hu. assert (Hq : (0 < inject_Z (Z.of_nat u))%Q) by (change 0%Q with (inject_Z 0); rewrite <- Zlt_Qlt; lia).
  split.
  - apply Qle_shift_div_l; [exact Hq|]. rewrite Qmult_0_l. change 0%Q with (inject_Z 0). rewrite <- Zle_Qle. lia.
  - apply Qle_shift_div_r; [exact Hq|]. rewrite Qmult_1_l. rewrite <- Zle_Qle. lia.
Qed.

Lemma q_ratio_one (i u : nat) :
  0 < u -> ((inject_Z (Z.of_nat i) / inject_Z (Z.of_nat u) == 1)%Q <-> i = u).
Proof.
  intros Hu. assert (Hq : ~ (inject_Z (Z.of_nat u) == 0)%Q).
  { intros H. unfold Qeq in H. simpl in H. lia. }
  split.
  - intros H. assert (H2 : (inject_Z (Z.of_nat u) * (inject_Z (Z.of_nat i) / inject_Z (Z.of_nat u))
                            == inject_Z (Z.of_nat u) * 1)%Q) by (rewrite H; reflexivity).
    rewrite Qmult_div_r in H2 by exact Hq. rewrite Qmult_1_r in H2.
    unfold Qeq in H2. simpl in H2. lia.
  - intros ->. unfold Qdiv. apply Qmult_inv_r. exact Hq.
Qed.

Lemma size_zero_empty (t : gset string) : size t = 0 -> t = ∅.
Proof. intros H. apply leibniz_equiv. apply size_empty_iff. exact H. Qed.

(** [_calculate_similarity] is symmetric and lies between 0 and 1. *)
Theorem calculate_similarity_bounds (t1 t2 : gset string) :
  (0 <= _calculate_similarity t1 t2 <= 1)%Q /\
  _calculate_similarity t1 t2 = _calculate_similarity t2 t1.
Proof.
  split.
  - unfold _calculate_similarity.
    destruct (Nat.eqb (size t1) 0 && Nat.eqb (size t2) 0); [split; discriminate|].
    destruct (Nat.eqb (size t1) 0 || Nat.eqb (size t2) 0); [split; discriminate|].
    destruct (Nat.ltb 0 (size (t1 ∪ t2))) eqn:Hu; [|split; discriminate].
    apply Nat.ltb_lt in Hu. apply q_ratio_bounds; [|exact Hu].
    apply subseteq_size. set_solver.
  - unfold _calculate_similarity.
    assert (Hi : t1 ∩ t2 = t2 ∩ t1) by (apply set_eq; set_solver).
    assert (Hu : t1 ∪ t2 = t2 ∪ t1) by (apply set_eq; set_solver).
    rewrite Hi, Hu, andb_comm, orb_comm. reflexivity.
Qed.

(** [_calculate_similarity] is 1 exactly on two equal sets (two empty sets
    included). *)
Theorem calculate_similarity_one (t1 t2 : gset string) :
  (_calculate_similarity t1 t2 == 1)%Q <-> t1 = t2.
Proof.
  unfold _calculate_similarity.
  destruct (Nat.eqb_spec (size t1) 0) as [H1|H1]; destruct (Nat.eqb_spec (size t2) 0) as [H2|H2];
    simpl.
  - apply size_zero_empty in H1, H2. subst. split; reflexivity.
  - split; [intros H; discriminate H|intros ->; contradiction].
  - split; [intros H; discriminate H|intros ->; contradiction].
  - assert (Hu : 0 < size (t1 ∪ t2)).
    { assert (size t1 <= size (t1 ∪ t2)) by (apply subseteq_size; set_solver). lia. }
    apply Nat.ltb_lt in Hu as Hb. rewrite Hb. rewrite q_ratio_one by exact Hu.
    split.
    + intros Hs. assert (Heq : t1 ∩ t2 = t1 ∪ t2).
      { apply set_subseteq_size_eq; [set_solver|lia]. }
      apply set_eq. intros x. split; intros Hx.
      * assert (Hx' : x ∈ t1 ∪ t2) by set_solver. rewrite <- Heq in Hx'. set_solver.
      * assert (Hx' : x ∈ t1 ∪ t2) by set_solver. rewrite <- Heq in Hx'. set_solver.
    + intros ->. assert (Hi : t2 ∩ t2 = t2 ∪ t2) by (apply set_eq; set_solver).
      rewrite Hi. reflexivity.
Qed.

(** ** Branch names *)

Lemma branch_path_sanitized p b1 b2 :
  sanitize_branch_name b1 = sanitize_branch_name b2 -> _get_branch_path p b1 = _get_branch_path p b2.
Proof. unfold _get_branch_path. intros ->. reflexivity. Qed.

(** [_sanitize_branch_name] leaves no ['/'] and no ['\'], keeps the length,
    and a sanitized name is its own sanitized name. *)
Theorem sanitize_branch_name_props (b : string) :
  ~ In "/"%char (list_ascii_of_string (sanitize_branch_name b)) /\
  ~ In "092"%char (list_ascii_of_string (sanitize_branch_name b)) /\
  String.length (sanitize_branch_name b) = String.length b /\
  sanitize_branch_name (sanitize_branch_name b) = sanitize_branch_name b.
Proof.
  induction b as [|c b [IH1 [IH2 [IH3 IH4]]]]; [repeat split; intros []|].
  simpl. destruct (Ascii.eqb c "/"%char || Ascii.eqb c "092"%char)%bool eqn:Hc; simpl.
  - repeat split.
    + intros [H|H]; [discriminate H|exact (IH1 H)].
    + intros [H|H]; [discriminate H|exact (IH2 H)].
    + rewrite IH3. reflexivity.
    + rewrite IH4. reflexivity.
  - apply orb_false_iff in Hc as [Hc1 Hc2]. repeat split.
    + intros [H|H]; [subst c; discriminate Hc1|exact (IH1 H)].
    + intros [H|H]; [subst c; discriminate Hc2|exact (IH2 H)].
    + rewrite IH3. reflexivity.
    + rewrite Hc1, Hc2, IH4. reflexivity.
Qed.

(** Two branches with the same sanitized name (such as [feature/x] and
    [feature_x]) read the same cache: [find_best_context] and
    [download_context] give the same answers for both. *)
Theorem sanitized_branches_share_cache (E : env) (st : store) (p b1 b2 c : string)
    (pc : option string) (fs : gmap string string) :
  sanitize_branch_name b1 = sanitize_branch_name b2 ->
  find_best_context E st p b1 c pc = find_best_context E st p b2 c pc /\
  download_context E st p b1 c fs = download_context E st p b2 c fs.
Proof.
  intros H. pose proof (branch_path_sanitized p b1 b2 H) as Hb. split.
  - unfold find_best_context, _get_metadata, _get_branch_latest, _get_base_branch_info,
      _get_metadata_path, _get_commit_path, latest_path, parent_branch_path.
    rewrite Hb. reflexivity.
  - unfold download_context, _download_context_legacy, _get_blob_prefix, _get_metadata,
      _get_metadata_path, _get_commit_path.
    rewrite Hb, H. reflexivity.
Qed.

Lemma sanitized_branches_share_cache_witness :
  sanitize_branch_name "feature/x" = sanitize_branch_name "feature_x" /\
  find_best_context env_ok empty_store "p" "feature/x" "c1" None
    = find_best_context env_ok empty_store "p" "feature_x" "c1" None /\
  download_context env_ok empty_store "p" "feature/x" "c1" ∅
    = download_context env_ok empty_store "p" "feature_x" "c1" ∅.
Proof.
  split; [reflexivity|].
  apply (sanitized_branches_share_cache env_ok empty_store "p" "feature/x" "feature_x" "c1" None ∅).
  reflexivity.
Defined.

(** ** Where a publish writes *)

(** The metadata name of [(project, branch, commit)] is determined by the
    sanitized branch name and the commit, and determines them. *)
Theorem metadata_path_distinct (p b1 c1 b2 c2 : string) :
  _get_metadata_path p b1 c1 = _get_metadata_path p b2 c2 <->
  sanitize_branch_name b1 = sanitize_branch_name b2 /\ c1 = c2.
Proof.
  split; [apply metadata_path_inj|].
  intros [Hb ->]. unfold _get_metadata_path, _get_commit_path.
  rewrite (branch_path_sanitized p b1 b2 Hb). reflexivity.
Qed.

(** [upload_context_with_dedup] for [(p, b, c)] changes no blob other than
    the metadata of [(p, b, c)], the pointer [latest.json] of [(p, b)] and
    content objects, whatever its outcome. *)
Theorem publish_writes_only (E : env) (clk : clock) (od : option local_dir) (p b c : string)
    (parent : option json) (st : store) (name : string) :
  name <> _get_metadata_path p b c ->
  name <> latest_path p b ->
  (forall h, name <> _get_content_object_path h) ->
  blobs (snd (upload_context_with_dedup E clk od p b c parent st)) !! name = blobs st !! name.
Proof.
  intros H1 H2 H3. apply (writes_upload_context E p b c clk od parent st).
  intros [H|[H|[h H]]]; [exact (H1 H)|exact (H2 H)|exact (H3 h H)].
Qed.

Lemma publish_writes_only_witness :
  blobs (snd (upload_context_with_dedup env_ok clk0 (Some dirA) "p" "main" "c1" None empty_store))
    !! base_branches_path "p" = blobs empty_store !! base_branches_path "p".
Proof.
  apply (publish_writes_only env_ok clk0 (Some dirA) "p" "main" "c1" None empty_store).
  - vm_compute. discriminate.
  - vm_compute. discriminate.
  - intros h H. vm_compute in H. discriminate H.
Defined.

Lemma read_json_changed E W st st' name :
  changed_within W st st' -> ~ W name -> read_json E st' name = read_json E st name.
Proof. intros H Hn. unfold read_json. rewrite (H name Hn). reflexivity. Qed.

(** A publish of [(p, b, c)] leaves what the code reads for every other
    commit or branch of the project as it was: the metadata of [(p, b', c')]
    when the sanitized branch or the commit differs, every fork record
    [parent_branch.json], and the [latest.json] of every branch whose
    sanitized name differs. *)
Theorem publish_keeps_other_entries (E : env) (clk : clock) (od : option local_dir)
    (p b c : string) (parent : option json) (st : store) (b' c' : string) :
  sanitize_branch_name b' <> sanitize_branch_name b \/ c' <> c ->
  _get_metadata E (snd (upload_context_with_dedup E clk od p b c parent st)) p b' c'
    = _get_metadata E st p b' c' /\
  (forall p' nb, _get_base_branch_info E (snd (upload_context_with_dedup E clk od p b c parent st)) p' nb
                 = _get_base_branch_info E st p' nb) /\
  (sanitize_branch_name b' <> sanitize_branch_name b ->
   _get_branch_latest E (snd (upload_context_with_dedup E clk od p b c parent st)) p b'
     = _get_branch_latest E st p b').
Proof.
  intros Hd. pose proof (writes_upload_context E p b c clk od parent st) as Hw.
  split; [|split].
  - unfold _get_metadata. apply (read_json_changed E _ _ _ _ Hw).
    intros [H|[H|[h H]]].
    + apply metadata_path_inj in H as [Hb Hc]. destruct Hd; contradiction.
    + exact (metadata_ne_latest_any _ _ _ _ _ H).
    + exact (content_ne_projects h _ (metadata_under_projects p b' c') (eq_sym H)).
  - intros p' nb. unfold _get_base_branch_info. apply (read_json_changed E _ _ _ _ Hw).
    intros [H|[H|[h H]]].
    + exact (metadata_ne_parent_any _ _ _ _ _ (eq_sym H)).
    + exact (latest_ne_parent_any _ _ _ _ (eq_sym H)).
    + exact (content_ne_parent h p' nb (eq_sym H)).
  - intros Hb. unfold _get_branch_latest. apply (read_json_changed E _ _ _ _ Hw).
    intros [H|[H|[h H]]].
    + exact (metadata_ne_latest_any _ _ _ _ _ (eq_sym H)).
    + exact (Hb (latest_path_inj _ _ _ H)).
    + exact (content_ne_projects h _ (latest_under_projects p b') (eq_sym H)).
Qed.

Lemma publish_keeps_other_entries_witness :
  (sanitize_branch_name "main" <> sanitize_branch_name "main" \/ "c0" <> "c1") /\
  _get_metadata env_ok (snd (upload_context_with_dedup env_ok clk0 (Some dirA) "p" "main" "c1"
                               None scenario_c1)) "p" "main" "c0"
    = _get_metadata env_ok scenario_c1 "p" "main" "c0".
Proof.
  assert (Hd : sanitize_branch_name "main" <> sanitize_branch_name "main" \/ "c0" <> "c1")
    by (right; discriminate).
  split; [exact Hd|].
  exact (proj1 (publish_keeps_other_entries env_ok clk0 (Some dirA) "p" "main" "c1" None scenario_c1
                  "main" "c0" Hd)).
Defined.

(** ** Publish, then resolve *)

(** After a publish that returns [true] (whichever path it takes),
    [find_best_context] for the same project, branch and commit is an exact
    hit. *)
Theorem publish_then_exact_hit (E : env) (clk : clock) (od : option local_dir) (p b c : string)
    (parent : option json) (st : store) (pc : option string) :
  fst (upload_context_with_dedup E clk od p b c parent st) = Ok true ->
  exists md,
    find_best_context E (snd (upload_context_with_dedup E clk od p b c parent st)) p b c pc
      = Ok (mkResolution true (Some (JStr c)) (Some md) Exact None).
Proof.
  intros H. destruct (publish_true_visible E clk od p b c parent st H) as [md Hmd].
  exists md. unfold find_best_context. rewrite Hmd. reflexivity.
Qed.

Lemma publish_then_exact_hit_witness :
  exists md,
    find_best_context env_ok
      (snd (upload_context_with_dedup env_ok clk0 (Some dirA) "p" "main" "c1" None empty_store))
      "p" "main" "c1" None
      = Ok (mkResolution true (Some (JStr "c1")) (Some md) Exact None).
Proof.
  apply (publish_then_exact_hit env_ok clk0 (Some dirA) "p" "main" "c1" None empty_store None).
  vm_compute. reflexivity.
Defined.

(** After a full publish of commit [c] on branch [b] that returns [true]
    and whose write of [latest.json] goes through, [find_best_context] for
    another commit [c'] of that branch without its own metadata and without
    a parent commit answers with [c]'s new metadata, strategy incremental
    (level 3, the branch pointer). *)
Theorem publish_then_incremental (E : env) (clk : clock) (d : local_dir) (p b c : string)
    (parent : option json) (st : store) (c' : string) :
  hit (_get_metadata E st p b c) = None ->
  _find_commit_in_other_branches E st p b c = None ->
  fst (upload_context_with_dedup E clk (Some d) p b c parent st) = Ok true ->
  put_ok E (latest_path p b) = true ->
  c' <> c ->
  hit (_get_metadata E st p b c') = None ->
  exists md,
    md_field md "commit_sha" = Some (JStr c) /\
    find_best_context E (snd (upload_context_with_dedup E clk (Some d) p b c parent st)) p b c' None
      = Ok (mkResolution true (Some (JStr c)) (Some md) Incremental None).
Proof.
  intros Hown Hx Ht Hput Hc Hc'.
  assert (Hkeep := proj1 (publish_keeps_other_entries E clk (Some d) p b c parent st b c'
                            (or_intror Hc))).
  rewrite <- Hkeep in Hc'. revert Hc'.
  rewrite upload_context_run, Hown, Hx in *. intros Hc'.
  destruct (publish_full_true E _ _ _ _ _ _ _ Ht) as [pobjs [cnt [objs [st1 [_ [_ [_ Hst]]]]]]].
  destruct (metadata_doc_shape clk p b c cnt objs) as [l [Hl [Ha Htr]]].
  rewrite Hl, (update_latest_run E clk p b c l _ Ha), Hput in Hst. cbn [snd] in Hst.
  exists (JObj l). split; [rewrite <- Hl; reflexivity|].
  assert (Hlat : _get_branch_latest E (snd (publish_full E clk d p b c parent st)) p b
                 = Some (latest_doc clk c)).
  { unfold _get_branch_latest, read_json. rewrite Hst. unfold stored; simpl.
    rewrite lookup_insert_eq. reflexivity. }
  assert (Hmeta : _get_metadata E (snd (publish_full E clk d p b c parent st)) p b c
                  = Some (JObj l)).
  { unfold _get_metadata, read_json. rewrite Hst. unfold stored; simpl.
    rewrite lookup_insert_ne by (apply not_eq_sym, metadata_ne_latest). rewrite lookup_insert_eq.
    reflexivity. }
  unfold find_best_context. rewrite Hc'. cbn [hit]. rewrite Hlat.
  assert (Hneq : String.eqb c c' = false) by (apply String.eqb_neq; congruence).
  unfold latest_doc. simpl. rewrite Hneq. simpl. rewrite Hmeta. simpl in Htr |- *. rewrite Htr.
  reflexivity.
Qed.

Lemma publish_then_incremental_witness :
  exists md,
    md_field md "commit_sha" = Some (JStr "c1") /\
    find_best_context env_ok
      (snd (upload_context_with_dedup env_ok clk0 (Some dirA) "p" "main" "c1" None empty_store))
      "p" "main" "c2" None
      = Ok (mkResolution true (Some (JStr "c1")) (Some md) Incremental None).
Proof.
  apply (publish_then_incremental env_ok clk0 dirA "p" "main" "c1" None empty_store "c2").
  - vm_compute. reflexivity.
  - vm_compute. reflexivity.
  - vm_compute. reflexivity.
  - vm_compute. reflexivity.
  - discriminate.
  - vm_compute. reflexivity.
Defined.


(** ** Fork records *)

Lemma record_fork_run E clk p nb bb bc ft cb st :
  record_branch_fork E clk p nb bb bc ft cb st =
  if put_ok E (parent_branch_path p nb)
  then (Ok true, stored st (parent_branch_path p nb) (Doc (fork_info clk bb bc ft cb)))
  else (Ok false, refused st (parent_branch_path p nb)).
Proof.
  unfold record_branch_fork, mbind, mcatch, mret, upload_blob.
  rewrite orb_true_l, andb_true_r. destruct (put_ok E _); reflexivity.
Qed.

(** After [record_branch_fork] returns [true] for a new branch, a lookup on
    that branch that misses its own commit and its [latest.json] (and has
    no parent commit) is answered from the recorded base: the base
    branch's metadata for the base commit, strategy cross-branch, or
    nothing found when that metadata is missing or empty. *)
Theorem fork_then_cross_branch (E : env) (clk : clock) (p nb bb bc ft : string)
    (cb : option string) (st : store) (c : string) :
  fst (record_branch_fork E clk p nb bb bc ft cb st) = Ok true ->
  hit (_get_metadata E st p nb c) = None ->
  hit (_get_branch_latest E st p nb) = None ->
  find_best_context E (snd (record_branch_fork E clk p nb bb bc ft cb st)) p nb c None =
  match hit (_get_metadata E st p bb bc) with
  | Some md => Ok (mkResolution true (Some (JStr bc)) (Some md) CrossBranch (Some (JStr bb)))
  | None => Ok not_found
  end.
Proof.
  rewrite record_fork_run. destruct (put_ok E _) eqn:Hput; [|discriminate]. intros _ Hown Hlat.
  cbn [snd]. set (st' := stored st (parent_branch_path p nb) (Doc (fork_info clk bb bc ft cb))).
  assert (Hkeep : forall name, name <> parent_branch_path p nb ->
                  read_json E st' name = read_json E st name).
  { intros name Hn. unfold read_json, st', stored; simpl. rewrite lookup_insert_ne by congruence.
    reflexivity. }
  assert (H1 : _get_metadata E st' p nb c = _get_metadata E st p nb c)
    by (apply Hkeep, metadata_ne_parent_any).
  assert (H2 : _get_branch_latest E st' p nb = _get_branch_latest E st p nb)
    by (apply Hkeep, latest_ne_parent_any).
  assert (H3 : _get_metadata E st' p bb bc = _get_metadata E st p bb bc)
    by (apply Hkeep, metadata_ne_parent_any).
  assert (H4 : _get_base_branch_info E st' p nb = Some (fork_info clk bb bc ft cb)).
  { unfold _get_base_branch_info, read_json, st', stored; simpl. rewrite lookup_insert_eq.
    reflexivity. }
  unfold find_best_context. rewrite H1, Hown. cbn [hit]. rewrite H2, Hlat, H4.
  unfold fork_info. simpl. rewrite H3. reflexivity.
Qed.

Lemma fork_then_cross_branch_witness :
  find_best_context env_ok
    (snd (record_branch_fork env_ok clk0 "p" "feature" "main" "c1" "branch" None scenario_c1))
    "p" "feature" "c5" None =
  match hit (_get_metadata env_ok scenario_c1 "p" "main" "c1") with
  | Some md => Ok (mkResolution true (Some (JStr "c1")) (Some md) CrossBranch (Some (JStr "main")))
  | None => Ok not_found
  end.
Proof.
  apply (fork_then_cross_branch env_ok clk0 "p" "feature" "main" "c1" "branch" None scenario_c1 "c5").
  - vm_compute. reflexivity.
  - vm_compute. reflexivity.
  - vm_compute. reflexivity.
Defined.

(** ** Single uploads *)

(** [_upload_content_object] returns [true] exactly when the content object
    is stored afterwards; it never replaces a stored object, and when the
    object was missing it either stores the given bytes there or changes
    nothing. *)
Theorem upload_content_object_outcome (E : env) (bytes h : string) (st : store) :
  ((fst (_upload_content_object E bytes h st) = Ok true /\
    blobs (snd (_upload_content_object E bytes h st)) !! _get_content_object_path h <> None) \/
   (fst (_upload_content_object E bytes h st) = Ok false /\
    blobs (snd (_upload_content_object E bytes h st)) !! _get_content_object_path h = None)) /\
  (blobs st !! _get_content_object_path h <> None ->
   blobs (snd (_upload_content_object E bytes h st)) = blobs st) /\
  (blobs st !! _get_content_object_path h = None ->
   blobs (snd (_upload_content_object E bytes h st)) = blobs st \/
   blobs (snd (_upload_content_object E bytes h st))
     = <[_get_content_object_path h := Raw bytes]> (blobs st)).
Proof.
  unfold _upload_content_object, mbind, _content_exists, mcatch, mret, upload_blob.
  destruct (blobs st !! _get_content_object_path h) as [bl|] eqn:Hb; simpl.
  - split; [left; split; [reflexivity|congruence]|]. split; [reflexivity|discriminate].
  - rewrite ?Hb, ?orb_false_l, ?andb_true_r.
    destruct (put_ok E _); simpl.
    + split; [left; split; [reflexivity|rewrite lookup_insert_eq; discriminate]|].
      split; [contradiction|right; reflexivity].
    + split; [right; split; [reflexivity|exact Hb]|]. split; [contradiction|left; reflexivity].
Qed.

(** [_update_branch_latest] returns [true] exactly when the write of
    [latest.json] goes through, and the pointer then read back names the
    commit; on [false] no blob changes.  A metadata document whose
    [analysis] is present but not a dict makes it raise [AttributeError]
    before any write. *)
Theorem update_branch_latest_outcome (E : env) (clk : clock) (p b c : string) (md : json)
    (st : store) :
  (fst (_update_branch_latest E clk p b c md st) = Ok true ->
   put_ok E (latest_path p b) = true /\
   exists info, _get_branch_latest E (snd (_update_branch_latest E clk p b c md st)) p b = Some info /\
                md_field info "commit_sha" = Some (JStr c)) /\
  (fst (_update_branch_latest E clk p b c md st) = Ok false ->
   put_ok E (latest_path p b) = false /\
   blobs (snd (_update_branch_latest E clk p b c md st)) = blobs st) /\
  (forall v, md_field md "analysis" = Some v -> (forall al, v <> JObj al) ->
   _update_branch_latest E clk p b c md st = (Err AttributeError, st)).
Proof.
  assert (Hrun : forall al,
    py_get md "analysis" (JObj []) = Ok (JObj al) ->
    _update_branch_latest E clk p b c md st =
    let info := JObj [("commit_sha", JStr c);
                      ("created_at", match assoc "created_at" al with Some x => x
                                     | None => JStr (local_now clk) end);
                      ("analysis_type", match assoc "type" al with Some x => x
                                        | None => JStr "full" end)] in
    if put_ok E (latest_path p b)
    then (Ok true, stored st (latest_path p b) (Doc info))
    else (Ok false, refused st (latest_path p b))).
  { intros al Ha. unfold _update_branch_latest, mbind at 1, lift. rewrite Ha.
    unfold mbind, lift, mcatch, mret, upload_blob. simpl.
    rewrite ?orb_true_l, ?andb_true_r. destruct (put_ok E _); reflexivity. }
  split; [|split].
  - destruct (py_get md "analysis" (JObj [])) as [[| | | | |al]|e] eqn:Ha;
      try (unfold _update_branch_latest, mbind, lift; rewrite Ha; simpl; discriminate).
    rewrite (Hrun al eq_refl). cbv zeta. destruct (put_ok E _) eqn:Hp; [|discriminate]. intros _.
    split; [reflexivity|]. eexists. split.
    + unfold _get_branch_latest, read_json, stored; simpl. rewrite lookup_insert_eq. reflexivity.
    + reflexivity.
  - destruct (py_get md "analysis" (JObj [])) as [[| | | | |al]|e] eqn:Ha;
      try (unfold _update_branch_latest, mbind, lift; rewrite Ha; simpl; discriminate).
    rewrite (Hrun al eq_refl). cbv zeta. destruct (put_ok E _) eqn:Hp; [discriminate|]. intros _.
    split; reflexivity.
  - intros v Hv Hnd. destruct md as [| | | | |l]; try discriminate Hv.
    simpl in Hv. unfold _update_branch_latest, mbind, lift. simpl. rewrite Hv.
    destruct v as [| | | | |al]; try reflexivity. exfalso. exact (Hnd al eq_refl).
Qed.

Lemma update_branch_latest_outcome_witness :
  _update_branch_latest env_ok clk0 "p" "main" "c1" (JObj [("analysis", JStr "x")]) empty_store
    = (Err AttributeError, empty_store).
Proof.
  apply (proj2 (proj2 (update_branch_latest_outcome env_ok clk0 "p" "main" "c1"
                          (JObj [("analysis", JStr "x")]) empty_store)) (JStr "x")).
  - reflexivity.
  - intros al H. discriminate H.
Defined.

(** ** [upload_context] *)

Lemma file_classes_no_parent E dname files :
  file_classes E dname [] files = map (fun _ => New) files.
Proof. unfold file_classes. apply map_ext. reflexivity. Qed.

Lemma count_class_all_new (A : Type) (l : list A) :
  count_class New (map (fun _ => New) l) = length l /\
  count_class Inherited (map (fun _ => New) l) = 0 /\
  count_class Updated (map (fun _ => New) l) = 0.
Proof.
  unfold count_class. induction l as [|x l IH]; simpl; [auto|].
  destruct IH as [A1 [A2 A3]]. rewrite A1, A2, A3. auto.
Qed.

Lemma forall2_new_map E dname c (files : list (string * string)) objs :
  Forall2 (fun f o => exists src sc,
             classify c None [] (dname ++ "/" ++ fst f) (_compute_file_hash E (snd f)) = Ok (src, sc) /\
             o = content_object_entry (dname ++ "/" ++ fst f) (_compute_file_hash E (snd f))
                   (String.length (snd f)) src sc) files objs ->
  objs = map (fun f => content_object_entry (dname ++ "/" ++ fst f) (_compute_file_hash E (snd f))
                         (String.length (snd f)) New (JStr c)) files.
Proof.
  induction 1 as [|f o fs os [src [sc [Hc ->]]] _ IH]; [reflexivity|].
  simpl. rewrite IH. simpl in Hc. injection Hc as <- <-. reflexivity.
Qed.

(** [upload_context] publishes without a parent: when the commit is not
    yet cached on the branch nor on any other branch, a publish that
    returns [True] stores a metadata document whose content objects are
    the directory's files in order, each marked [new] with the commit as
    its source, and whose stats count every file as new. *)
Theorem upload_context_all_new (E : env) clk (d : local_dir) (p b c : string) (st : store) :
  hit (_get_metadata E st p b c) = None ->
  _find_commit_in_other_branches E st p b c = None ->
  fst (upload_context E clk (Some d) p b c st) = Ok true ->
  exists cnt,
    blobs (snd (upload_context E clk (Some d) p b c st)) !! _get_metadata_path p b c =
      Some (Doc (metadata_doc clk p b c cnt
                   (map (fun f => content_object_entry (dir_name d ++ "/" ++ fst f)
                                    (_compute_file_hash E (snd f)) (String.length (snd f))
                                    New (JStr c)) (dir_files d)))) /\
    total_files cnt = length (dir_files d) /\
    new_files cnt = length (dir_files d) /\
    inherited_files cnt = 0 /\ updated_files cnt = 0.
Proof.
  intros Hm Hx. unfold upload_context. rewrite upload_context_run, Hm, Hx.
  intros Ht. destruct (publish_full_true_doc E _ _ _ _ _ _ _ Ht)
    as [pobjs [cnt [objs [st1 [Hb [Hs Hd]]]]]].
  simpl in Hb. injection Hb as <-.
  destruct (scan_files_success E _ _ _ _ _ _ _ _ _ _ _ Hs)
    as [objs' [Ho [F2 [T [I [U [N _]]]]]]].
  simpl in Ho. subst objs'.
  rewrite (forall2_new_map E _ c _ _ F2) in Hd.
  rewrite file_classes_no_parent in I, U, N.
  destruct (count_class_all_new _ (dir_files d)) as [A1 [A2 A3]].
  exists cnt. simpl in T, I, U, N. repeat split; [exact Hd|lia|lia|lia|lia].
Qed.

Lemma upload_context_all_new_witness :
  exists cnt,
    blobs (snd (upload_context env_ok clk0 (Some dirA) "p" "main" "c1" empty_store))
      !! _get_metadata_path "p" "main" "c1" =
      Some (Doc (metadata_doc clk0 "p" "main" "c1" cnt
                   (map (fun f => content_object_entry (dir_name dirA ++ "/" ++ fst f)
                                    (_compute_file_hash env_ok (snd f)) (String.length (snd f))
                                    New (JStr "c1")) (dir_files dirA)))) /\
    total_files cnt = length (dir_files dirA) /\
    new_files cnt = length (dir_files dirA) /\
    inherited_files cnt = 0 /\ updated_files cnt = 0.
Proof.
  apply (upload_context_all_new env_ok clk0 dirA "p" "main" "c1" empty_store);
    vm_compute; reflexivity.
Defined.

(** ** [find_latest_context] *)

Lemma string_compare_le_trans s1 s2 s3 :
  String.compare s1 s2 <> Gt -> String.compare s2 s3 <> Gt -> String.compare s1 s3 <> Gt.
Proof.
  revert s2 s3. induction s1 as [|a s1 IH]; intros [|b s2] [|c s3]; simpl; try congruence.
  unfold Ascii.compare.
  destruct (N.compare_spec (Ascii.N_of_ascii a) (Ascii.N_of_ascii b)) as [E1|L1|G1];
    [|intros _|congruence].
  - rewrite E1. destruct (N.compare_spec (Ascii.N_of_ascii b) (Ascii.N_of_ascii c)); try congruence.
    apply IH.
  - destruct (N.compare_spec (Ascii.N_of_ascii b) (Ascii.N_of_ascii c)) as [E2|L2|G2];
      [intros _|intros _|congruence];
    rewrite (proj2 (N.compare_lt_iff _ _)) by lia; congruence.
Qed.
Lemma string_compare_refl s : String.compare s s = Eq.
Proof. induction s as [|a s IH]; simpl; [reflexivity|]. unfold Ascii.compare. rewrite N.compare_refl. exact IH. Qed.
Lemma last_strongly_sorted {A} (R : relation A) `{!Reflexive R} (l : list A) x :
  StronglySorted R l -> last l = Some x -> forall y, In y l -> R y x.
Proof.
  induction 1 as [|a l Hs IH Hall]; [discriminate|].
  intros Hl y [<-|Hy].
  - destruct l as [|b l]; [simpl in Hl; injection Hl as ->; reflexivity|].
    rewrite last_cons_cons in Hl. rewrite List.Forall_forall in Hall. apply Hall.
    apply list_elem_of_In, last_Some_elem_of, Hl.
  - destruct l as [|b l]; [destruct Hy|]. rewrite last_cons_cons in Hl. exact (IH Hl y Hy).
Qed.

#[global] Instance str_le_trans : Transitive str_le.
Proof.
  intros x y z. unfold str_le, String.leb.
  destruct (String.compare x y) eqn:H1, (String.compare y z) eqn:H2; try discriminate; intros _ _;
    destruct (String.compare x z) eqn:H3; try reflexivity;
    exfalso; refine (string_compare_le_trans x y z _ _ H3); congruence.
Qed.

#[global] Instance str_le_refl : Reflexive str_le.
Proof. intros x. unfold str_le, String.leb. rewrite string_compare_refl. reflexivity. Qed.

#[global] Instance str_le_total : Total str_le.
Proof. intros x y. apply String.leb_total. Qed.

(** [find_latest_context] answers [None] exactly when no blob lies under
    [{project_id}/{branch}/]; otherwise it answers the first path segment
    of one such blob, and no other blob's first segment is greater in
    Python's string order. *)
Theorem find_latest_context_max (st : store) (p b : string) :
  let pre := (_get_blob_prefix p b ++ "/")%string in
  (find_latest_context st p b = None <-> list_blob_names st pre = []) /\
  (forall x, find_latest_context st p b = Some x ->
     (exists n, In n (list_blob_names st pre) /\ x = first_segment (drop (String.length pre) n)) /\
     (forall n, In n (list_blob_names st pre) ->
        String.leb (first_segment (drop (String.length pre) n)) x = true)).
Proof.
  intros pre. unfold find_latest_context. fold pre.
  set (names := list_blob_names st pre).
  set (f := fun n => first_segment (drop (String.length pre) n)).
  set (commits := list_to_set (map f names) : gset string).
  assert (Hmem : forall y, y ∈ merge_sort str_le (elements commits) <-> exists n, In n names /\ y = f n).
  { intros y. rewrite (merge_sort_Permutation str_le (elements commits)), elem_of_elements.
    unfold commits. rewrite elem_of_list_to_set, list_elem_of_In, in_map_iff.
    split; intros [n [H1 H2]]; eauto. }
  assert (Hsz : Nat.eqb (size commits) 0 = true <-> names = []).
  { rewrite Nat.eqb_eq, size_empty_iff. split.
    - intros He. destruct names as [|n l] eqn:Hn; [reflexivity|exfalso].
      assert (Hc : f n ∈ commits).
      { unfold commits. rewrite elem_of_list_to_set, list_elem_of_In. left. reflexivity. }
      apply He in Hc. apply not_elem_of_empty in Hc. exact Hc.
    - intros Hn y. unfold commits. rewrite Hn. simpl. set_solver. }
  split.
  - destruct (Nat.eqb (size commits) 0) eqn:Hz.
    + split; [intros _; apply Hsz; reflexivity|reflexivity].
    + split; [|intros Hn; apply Hsz in Hn; discriminate].
      intros Hl. exfalso. apply last_None in Hl.
      assert (Hne : names <> []) by (intros Hn; apply Hsz in Hn; discriminate).
      destruct names as [|n l] eqn:Hn; [congruence|].
      assert (Hin : f n ∈ merge_sort str_le (elements commits)).
      { apply Hmem. exists n. split; [left|]; reflexivity. }
      rewrite Hl in Hin. apply not_elem_of_nil in Hin. exact Hin.
  - intros x. destruct (Nat.eqb (size commits) 0); [discriminate|]. intros Hl.
    split.
    + apply Hmem, last_Some_elem_of, Hl.
    + intros n Hn. apply (last_strongly_sorted str_le (merge_sort str_le (elements commits)) x).
      * apply Sorted_StronglySorted; [exact str_le_trans|apply Sorted_merge_sort; exact str_le_total].
      * exact Hl.
      * apply (proj1 (list_elem_of_In _ _)), Hmem. exists n. split; [exact Hn|reflexivity].
Qed.

Lemma prefix_split s n : String.prefix s n = true -> exists r, n = (s ++ r)%string.
Proof.
  revert n. induction s as [|x s IH]; intros n H; [exists n; reflexivity|].
  destruct n as [|y n]; [discriminate|]. simpl in H.
  destruct (Ascii.ascii_dec x y) as [<-|]; [|discriminate].
  destruct (IH n H) as [r ->]. exists r. reflexivity.
Qed.

Lemma list_blob_names_in st pre n :
  In n (list_blob_names st pre) <-> String.prefix pre n = true /\ blobs st !! n <> None.
Proof.
  unfold list_blob_names. rewrite filter_In, in_map_iff.
  split.
  - intros [[[n' bl] [<- Hin]] Hp]. split; [exact Hp|]. simpl.
    apply list_elem_of_In, elem_of_map_to_list in Hin. congruence.
  - intros [Hp Hb]. split; [|exact Hp].
    destruct (blobs st !! n) as [bl|] eqn:Hl; [|congruence].
    exists (n, bl). split; [reflexivity|]. apply list_elem_of_In, elem_of_map_to_list, Hl.
Qed.

(** [find_latest_context] reads only the blobs under its prefix. *)
Lemma find_latest_context_local st st' p b :
  (forall n, String.prefix (_get_blob_prefix p b ++ "/") n = true -> blobs st' !! n = blobs st !! n) ->
  find_latest_context st' p b = find_latest_context st p b.
Proof.
  intros H. unfold find_latest_context.
  set (pre := (_get_blob_prefix p b ++ "/")%string) in *.
  set (f := fun n => first_segment (drop (String.length pre) n)).
  assert (Hs : (list_to_set (map f (list_blob_names st' pre)) : gset string)
               = list_to_set (map f (list_blob_names st pre))).
  { apply set_eq. intros y. rewrite !elem_of_list_to_set, !list_elem_of_In, !in_map_iff.
    split; intros [n [Hy Hn]]; exists n; split; try exact Hy;
      apply list_blob_names_in in Hn; apply list_blob_names_in;
      destruct Hn as [Hp Hb]; split; try exact Hp.
    - rewrite <- (H n Hp). exact Hb.
    - rewrite (H n Hp). exact Hb. }
  fold f. rewrite Hs. reflexivity.
Qed.

Lemma no_slash_projects : no_slash "projects".
Proof. intros H. simpl in H. repeat (destruct H as [H|H]; [discriminate|]); exact H. Qed.

Lemma no_slash_objects : no_slash "objects".
Proof. intros H. simpl in H. repeat (destruct H as [H|H]; [discriminate|]); exact H. Qed.

Lemma publish_name_top p b c name :
  publish_names p b c name ->
  exists a r, (a = "projects" \/ a = "objects") /\ name = (a ++ "/" ++ r)%string.
Proof.
  intros [->|[->|[h ->]]].
  - rewrite metadata_path_split. eexists "projects", _. split; [left; reflexivity|reflexivity].
  - rewrite latest_path_split. eexists "projects", _. split; [left; reflexivity|reflexivity].
  - exists "objects", ("content/" ++ h)%string. split; [right; reflexivity|reflexivity].
Qed.

(** A publish through [upload_context_with_dedup] writes only under
    [projects/] and [objects/], so it leaves [find_latest_context]
    unchanged for every project id that is a single path segment other
    than those two. *)
Theorem publish_keeps_latest_context (E : env) clk od (p b c : string) parent st (p' b' : string) :
  no_slash p' -> p' <> "projects" -> p' <> "objects" ->
  find_latest_context (snd (upload_context_with_dedup E clk od p b c parent st)) p' b'
    = find_latest_context st p' b'.
Proof.
  intros Hs Hp Ho. apply find_latest_context_local.
  intros n Hn. apply (writes_upload_context E p b c clk od parent st).
  intros Hw. destruct (publish_name_top p b c n Hw) as [a [r [Ha ->]]].
  apply prefix_split in Hn. destruct Hn as [r' Hr]. unfold _get_blob_prefix in Hr.
  rewrite !sapp_assoc in Hr.
  assert (Hna : no_slash a) by (destruct Ha as [->| ->]; [apply no_slash_projects|apply no_slash_objects]).
  destruct (slash_split a p' _ _ Hna Hs Hr) as [-> _].
  destruct Ha; contradiction.
Qed.

Lemma publish_keeps_latest_context_witness :
  find_latest_context
    (snd (upload_context_with_dedup env_ok clk0 (Some dirA) "p" "main" "c2" None
            (mkStore (<["p/main/c1/.copilot/f1" := Doc (JObj [])]> ∅) [])))
    "p" "main"
  = find_latest_context (mkStore (<["p/main/c1/.copilot/f1" := Doc (JObj [])]> ∅) []) "p" "main".
Proof.
  apply publish_keeps_latest_context.
  - intros H. simpl in H. repeat (destruct H as [H|H]; [discriminate|]); exact H.
  - discriminate.
  - discriminate.
Defined.

(** ** [_find_commit_in_other_branches] *)

Lemma first_metadata_sound E st p c brs md :
  first_metadata E st p c brs = Some md ->
  exists br, In br brs /\ hit (_get_metadata E st p br c) = Some md.
Proof.
  induction brs as [|br brs IH]; simpl; [discriminate|].
  destruct (hit (_get_metadata E st p br c)) as [md'|] eqn:Hh.
  - intros [= <-]. exists br. auto.
  - intros H. destruct (IH H) as [br' [Hin Hb]]. exists br'. auto.
Qed.

(** [_find_commit_in_other_branches] only answers with the readable
    metadata of the commit on a branch whose name differs from the current
    one, and [main] comes first: when the current branch is not [main] and
    [main] holds the commit, its metadata is the answer. *)
Theorem find_commit_other_branches_sound (E : env) (st : store) (p cur c : string) :
  (forall md, _find_commit_in_other_branches E st p cur c = Some md ->
     exists br, br <> cur /\ hit (_get_metadata E st p br c) = Some md) /\
  (cur <> "main" -> forall md, hit (_get_metadata E st p "main" c) = Some md ->
     _find_commit_in_other_branches E st p cur c = Some md).
Proof.
  split.
  - intros md. unfold _find_commit_in_other_branches.
    destruct (first_metadata E st p c _) as [md'|] eqn:H1.
    + intros [= <-]. destruct (first_metadata_sound _ _ _ _ _ _ H1) as [br [Hin Hb]].
      apply filter_In in Hin. destruct Hin as [_ Hne]. exists br. split; [|exact Hb].
      intros ->. rewrite String.eqb_refl in Hne. discriminate.
    + destruct (read_json E st (base_branches_path p)) as [[| | | | |l]|]; try discriminate.
      intros H2. destruct (first_metadata_sound _ _ _ _ _ _ H2) as [br [Hin Hb]].
      apply filter_In in Hin. destruct Hin as [_ Hne]. exists br. split; [|exact Hb].
      intros ->. rewrite String.eqb_refl in Hne. discriminate.
  - intros Hcur md Hm. unfold _find_commit_in_other_branches.
    assert (Hf : negb (String.eqb "main" cur) = true).
    { destruct (String.eqb_spec "main" cur); [congruence|reflexivity]. }
    unfold common_branches. cbn [List.filter]. rewrite Hf. simpl. rewrite Hm. reflexivity.
Qed.
